(** * Review subsystem of tw-server: cache keys, cache consistency, handlers

    A shallow embedding of [app/api/reviews.py] and of the blueprint error
    handler of [app/api/__init__.py].  Python values are embedded as they
    reach the handlers: request bodies as JSON documents, text as byte
    strings, integers as [Z], floats as IEEE-754 binary64 values
    ([spec_float]).  Side-effecting code is embedded in a state-and-exception
    monad over a [World] that holds the relational store, the SQLAlchemy
    session, the Redis keyspace and the log of effects. *)

From Stdlib Require Import ZArith List String Ascii Bool Lia Permutation.
From Stdlib Require Import Sorting.Sorted DecimalString SpecFloat.
From Stdlib Require DecimalPos DecimalZ.
Import ListNotations.

Set Warnings "-register-all".

Local Open Scope string_scope.
Local Open Scope Z_scope.

(* ================================================================== *)
(** * Python text and numbers *)
(* ================================================================== *)

Module Py.

(** [needle in hay] for two [str] values. *)
Fixpoint contains (needle hay : string) : bool :=
  String.prefix needle hay
  || match hay with
     | EmptyString => false
     | String _ rest => contains needle rest
     end.

(** [str(z)] for an [int]. *)
Definition str_of_int (z : Z) : string :=
  NilZero.string_of_int (Z.to_int z).

(** ["sep".join(parts)]. *)
Definition join (sep : string) (parts : list string) : string :=
  String.concat sep parts.

(** The exceptions that the modelled code can meet.  [IntegrityError] is a
    subclass of [SQLAlchemyError]; both carry [str(e)]. *)
Inductive exn : Type :=
  | ValueError
  | TypeError
  | OverflowError
  | KeyError
  | AttributeError
  | BadRequest
  | RedisError
  | IntegrityError (msg : string)
  | SQLAlchemyError (msg : string).

(** [isinstance(e, SQLAlchemyError)]. *)
Definition is_sqlalchemy_error (e : exn) : bool :=
  match e with
  | IntegrityError _ | SQLAlchemyError _ => true
  | _ => false
  end.

(** [isinstance(e, (ValueError, TypeError))]. *)
Definition is_value_or_type_error (e : exn) : bool :=
  match e with
  | ValueError | TypeError => true
  | _ => false
  end.

(** [str(e)] for the store exceptions. *)
Definition str_of_exn (e : exn) : string :=
  match e with
  | IntegrityError m | SQLAlchemyError m => m
  | ValueError => "ValueError"
  | TypeError => "TypeError"
  | OverflowError => "OverflowError"
  | KeyError => "KeyError"
  | AttributeError => "AttributeError"
  | BadRequest => "BadRequest"
  | RedisError => "RedisError"
  end.

(** A pure computation that may raise. *)
Inductive result (A : Type) : Type :=
  | Ok (a : A)
  | Raise (e : exn).
Arguments Ok {A} a.
Arguments Raise {A} e.

(** ** [int(s)] for a [str]

    Surrounding whitespace is stripped, one sign is allowed, and the digits
    may be grouped by single underscores.  Only ASCII digits and ASCII
    whitespace are recognised here; the interpreter's limit on the number of
    digits is not modelled. *)

Definition is_space (c : ascii) : bool :=
  let n := Z.of_nat (nat_of_ascii c) in
  ((9 <=? n) && (n <=? 13)) || ((28 <=? n) && (n <=? 32)).

Definition digit_of (c : ascii) : option Z :=
  let n := Z.of_nat (nat_of_ascii c) in
  if (48 <=? n) && (n <=? 57) then Some (n - 48) else None.

Fixpoint lstrip (s : list ascii) : list ascii :=
  match s with
  | c :: rest => if is_space c then lstrip rest else s
  | [] => []
  end.

Definition strip (s : list ascii) : list ascii :=
  rev (lstrip (rev (lstrip s))).

(** [after_digit] tells whether the previous character was a digit: an
    underscore may only follow a digit and must be followed by one. *)
Fixpoint digits (acc : Z) (after_digit : bool) (s : list ascii) : option Z :=
  match s with
  | [] => if after_digit then Some acc else None
  | c :: rest =>
      match digit_of c with
      | Some d => digits (10 * acc + d) true rest
      | None =>
          if Ascii.eqb c "_"%char && after_digit
          then digits acc false rest
          else None
      end
  end.

Definition int_of_str (s : string) : result Z :=
  let body := strip (list_ascii_of_string s) in
  let signed :=
    match body with
    | "-"%char :: rest => option_map Z.opp (digits 0 false rest)
    | "+"%char :: rest => digits 0 false rest
    | _ => digits 0 false body
    end in
  match signed with
  | Some z => Ok z
  | None => Raise ValueError
  end.

(** ** [int(x)] for a [float]: truncation toward zero; infinities raise
    [OverflowError] and NaN raises [ValueError]. *)
Definition int_of_float (f : spec_float) : result Z :=
  match f with
  | S754_zero _ => Ok 0
  | S754_infinity _ => Raise OverflowError
  | S754_nan => Raise ValueError
  | S754_finite sign m e =>
      let magnitude := Z.shiftl (Z.pos m) e in
      Ok (if sign then - magnitude else magnitude)
  end.

End Py.

(* ================================================================== *)
(** * JSON documents *)
(* ================================================================== *)

(** What [request.get_json()] and [json.loads] return.  A [JObj] is a Python
    [dict] in insertion order; its keys are distinct. *)
Inductive Json : Type :=
  | JNull
  | JBool (b : bool)
  | JInt (z : Z)
  | JFloat (f : spec_float)
  | JStr (s : string)
  | JList (items : list Json)
  | JObj (fields : list (string * Json)).

Module PyJson.
Import Py.

Fixpoint lookup (k : string) (fields : list (string * Json)) : option Json :=
  match fields with
  | [] => None
  | (k', v) :: rest => if String.eqb k k' then Some v else lookup k rest
  end.

(** [bool(x)]: the truth value used by [if not data] and [if result]. *)
Definition truthy (j : Json) : bool :=
  match j with
  | JNull => false
  | JBool b => b
  | JInt z => negb (z =? 0)
  | JFloat (S754_zero _) => false
  | JFloat _ => true
  | JStr s => negb (String.eqb s "")
  | JList items => match items with [] => false | _ => true end
  | JObj fields => match fields with [] => false | _ => true end
  end.

Definition is_str (k : string) (j : Json) : bool :=
  match j with
  | JStr s => String.eqb k s
  | _ => false
  end.

(** [k in data] for a string [k]: key membership on a dict, element
    membership on a list, substring on a str, [TypeError] otherwise. *)
Definition contains_key (k : string) (data : Json) : result bool :=
  match data with
  | JObj fields =>
      Ok (match lookup k fields with Some _ => true | None => false end)
  | JList items => Ok (existsb (is_str k) items)
  | JStr s => Ok (Py.contains k s)
  | _ => Raise TypeError
  end.

(** [data[k]] for a string [k]: only a dict can be indexed by a string. *)
Definition getitem (k : string) (data : Json) : result Json :=
  match data with
  | JObj fields =>
      match lookup k fields with
      | Some v => Ok v
      | None => Raise KeyError
      end
  | _ => Raise TypeError
  end.

(** [int(x)]. *)
Definition to_int (j : Json) : result Z :=
  match j with
  | JInt z => Ok z
  | JBool b => Ok (if b then 1 else 0)
  | JFloat f => int_of_float f
  | JStr s => int_of_str s
  | JNull | JList _ | JObj _ => Raise TypeError
  end.

End PyJson.

(* ================================================================== *)
(** * Cache key builder *)
(* ================================================================== *)

Module CacheKey.

(** A keyword argument value as the handlers pass them: [page] and [size]
    are ints, [sort_by] and [order] are strs. *)
Inductive param : Type :=
  | PInt (z : Z)
  | PStr (s : string).

(** [f'{value}'] *)
Definition format_param (v : param) : string :=
  match v with
  | PInt z => Py.str_of_int z
  | PStr s => s
  end.

(** [**params]: a dict in insertion order. *)
Definition params := list (string * param).

(** [sorted(params.items())].  The items are (name, value) tuples and the
    names of a dict are distinct, so the tuple order is decided by the names
    and the values are never compared. *)
Fixpoint insert_item (x : string * param) (l : params) : params :=
  match l with
  | [] => [x]
  | y :: rest =>
      if String.leb (fst x) (fst y) then x :: l else y :: insert_item x rest
  end.

Fixpoint sorted_items (l : params) : params :=
  match l with
  | [] => []
  | x :: rest => insert_item x (sorted_items rest)
  end.

(** The loop [query_params.append(f'{key}={value}')]. *)
Definition query_params (l : params) : list string :=
  map (fun kv => fst kv ++ "=" ++ format_param (snd kv)) (sorted_items l).

Definition key_with_params (base_key : string) (p : params) : string :=
  match p with
  | [] => base_key
  | _ => base_key ++ "?" ++ Py.join "&" (query_params p)
  end.

Definition get_reviews_cache_key (place_id : string) (p : params) : string :=
  key_with_params ("url:/reviews/" ++ place_id) p.

Definition get_all_reviews_cache_key (p : params) : string :=
  key_with_params "url:/reviews/all" p.

Definition lower_ascii (c : ascii) : ascii :=
  let n := nat_of_ascii c in
  if ((65 <=? n) && (n <=? 90))%nat then ascii_of_nat (n + 32) else c.

Fixpoint lower (s : string) : string :=
  match s with
  | EmptyString => EmptyString
  | String c rest => String (lower_ascii c) (lower rest)
  end.

Definition get_place_cache_key (place_type place_id : string) : string :=
  let place_type := lower place_type in
  if String.eqb place_type "thing-to-do"
  then "things-to-do:" ++ place_id
  else place_type ++ "s:" ++ place_id.

End CacheKey.


(* ================================================================== *)
(** * The world the handlers run in *)
(* ================================================================== *)

(** A row of [users]. *)
Record User : Type := mkUser {
  u_id : string;
  u_full_name : string;
  u_avatar : option string;
  u_email : string
}.

(** A row of [user_reviews].  [r_user_id] is an SQL value and may be NULL;
    [r_review] is whatever the request body held under ['review'].
    Identifiers and timestamps are opaque: they are numbers drawn from the
    store's counters. *)
Record UserReview : Type := mkReview {
  r_id : Z;
  r_user_id : option string;
  r_place_id : string;
  r_rating : Z;
  r_review : Json;
  r_created_at : Z;
  r_updated_at : Z
}.

(** What a round trip to the database can raise: an [IntegrityError] or
    another [SQLAlchemyError], each with its [str(e)]. *)
Inductive store_error : Type :=
  | Integrity (msg : string)
  | Operational (msg : string).

Definition exn_of_store_error (e : store_error) : Py.exn :=
  match e with
  | Integrity m => Py.IntegrityError m
  | Operational m => Py.SQLAlchemyError m
  end.

(** The relational store together with the SQLAlchemy session.
    [db_session] is the uncommitted working copy of [user_reviews], [None]
    when the session is clean.  [db_faults] says what each coming round trip
    to the database raises ([None]: nothing); past its end the plan raises
    nothing.  Requests run one at a time here: what a concurrent transaction
    provokes, such as a violated uniqueness constraint at commit, enters
    through this plan. *)
Record Db : Type := mkDb {
  db_users : list User;
  db_reviews : list UserReview;
  db_session : option (list UserReview);
  db_faults : list (option store_error);
  db_next_id : Z;
  db_clock : Z
}.

(** What a Redis key holds: the bytes written by [json.dumps], represented
    by the document they denote, or bytes that [json.loads] rejects. *)
Inductive cached : Type :=
  | Dumped (doc : Json)
  | Malformed (bytes : string).

(** The Redis keyspace (key, expiry in seconds, value) and the plan of
    failures of the coming commands ([true]: the command raises). *)
Record Redis : Type := mkRedis {
  rd_keys : list (string * (Z * cached));
  rd_faults : list bool
}.

Inductive level : Type := Debug | Warning | Error.

(** Effects that leave the handler, in the order in which they happen. *)
Inductive Event : Type :=
  | EvCommit
  | EvCommitFailed (e : store_error)
  | EvRollback
  | EvHistogram (place_id : string) (old_rating new_rating : option Z)
  | EvInvalidate (place_id : string)
  | EvPreference (user_id : option string)
  | EvRedisGet (key : string)
  | EvRedisSetex (key : string) (ttl : Z)
  | EvRedisKeys (pattern : string)
  | EvRedisDelete (keys : list string)
  | EvLog (lvl : level) (message : string).

Record World : Type := mkWorld {
  w_places : list string;   (* ids of the places present in the graph store *)
  w_db : Db;
  w_redis : Redis;
  w_trace : list Event      (* oldest first *)
}.

Definition with_db (f : Db -> Db) (w : World) : World :=
  mkWorld (w_places w) (f (w_db w)) (w_redis w) (w_trace w).

Definition with_redis (f : Redis -> Redis) (w : World) : World :=
  mkWorld (w_places w) (w_db w) (f (w_redis w)) (w_trace w).

Definition with_trace (f : list Event -> list Event) (w : World) : World :=
  mkWorld (w_places w) (w_db w) (w_redis w) (f (w_trace w)).

Record Response : Type := mkResponse {
  status : Z;
  body : Json
}.

(** The parts of [flask.request] that the views read. *)
Record Request : Type := mkRequest {
  req_identity : option string;       (* the verified JWT identity, if any *)
  req_json : Py.result Json;          (* outcome of [request.get_json()] *)
  req_args : list (string * string)   (* the query string *)
}.

(* ================================================================== *)
(** * Control flow: state, exceptions and [return] *)
(* ================================================================== *)

Module Flow.

(** How a block of statements ends: it runs to its end with a value, it
    executes [return r], or it raises. *)
Inductive outcome (R A : Type) : Type :=
  | Normal (a : A)
  | Returned (r : R)
  | Raised (e : Py.exn).
Arguments Normal {R A} a.
Arguments Returned {R A} r.
Arguments Raised {R A} e.

(** A block inside a function whose return type is [R]. *)
Definition block (R A : Type) : Type := World -> outcome R A * World.

Definition pure {R A} (a : A) : block R A := fun w => (Normal a, w).

Definition bind {R A B} (c : block R A) (k : A -> block R B) : block R B :=
  fun w =>
    match c w with
    | (Normal a, w') => k a w'
    | (Returned r, w') => (Returned r, w')
    | (Raised e, w') => (Raised e, w')
    end.

Definition return_ {R A} (r : R) : block R A := fun w => (Returned r, w).

Definition raise {R A} (e : Py.exn) : block R A := fun w => (Raised e, w).

(** A pure expression that may raise. *)
Definition eval {R A} (x : Py.result A) : block R A :=
  match x with
  | Py.Ok a => pure a
  | Py.Raise e => raise e
  end.

(** [try: c  except ...: handler].  [handler e] is [None] when no [except]
    clause matches [e], which then propagates. *)
Definition try_except {R A} (c : block R A)
    (handler : Py.exn -> option (block R A)) : block R A :=
  fun w =>
    match c w with
    | (Raised e, w') =>
        match handler e with
        | Some h => h w'
        | None => (Raised e, w')
        end
    | other => other
    end.

(** Calling a function: its [return] value, or the value of its last
    statement, is the value of the call; its exceptions propagate. *)
Definition call {R R' : Type} (f : block R R) : block R' R :=
  fun w =>
    match f w with
    | (Normal r, w') => (Normal r, w')
    | (Returned r, w') => (Normal r, w')
    | (Raised e, w') => (Raised e, w')
    end.

Definition when {R} (b : bool) (c : block R unit) : block R unit :=
  if b then c else pure tt.

Definition get_world {R} : block R World := fun w => (Normal w, w).

Definition modify {R} (f : World -> World) : block R unit :=
  fun w => (Normal tt, f w).

Definition emit {R} (e : Event) : block R unit :=
  modify (with_trace (fun t => (t ++ [e])%list)).

End Flow.

Import Flow.

Declare Scope flow_scope.
Delimit Scope flow_scope with flow.
Notation "x <- c ;; k" := (bind c (fun x => k))
  (at level 61, c at next level, right associativity) : flow_scope.
Notation "c ;; k" := (bind c (fun _ => k))
  (at level 61, right associativity) : flow_scope.
Local Open Scope flow_scope.

(** What the client of a view receives: the response, or an exception that
    escaped the view and is left to the framework. *)
Definition run_view (v : block Response Response) (w : World)
  : Py.result Response * World :=
  match v w with
  | (Normal r, w') => (Py.Ok r, w')
  | (Returned r, w') => (Py.Ok r, w')
  | (Raised e, w') => (Py.Raise e, w')
  end.

(** [logger.debug / warning / error]; elapsed wall-clock times are left out
    of the messages. *)
Definition log {R} (lvl : level) (message : string) : block R unit :=
  emit (EvLog lvl message).

(** [jsonify({'error': message}), code] *)
Definition error_response (message : string) (code : Z) : Response :=
  mkResponse code (JObj [("error", JStr message)]).

(* ================================================================== *)
(** * The Redis client *)
(* ================================================================== *)

Module Glob.

(** The glob patterns of the [KEYS] command: [*], [?], character classes
    [[...]] (negated by a leading [^], with ranges [a-z]) and [\] to quote
    the next character.  A class that is not closed ends with the
    pattern. *)
Inductive class_item : Type :=
  | CChar (c : ascii)
  | CRange (lo hi : ascii).

Inductive token : Type :=
  | TStar
  | TAny
  | TClass (negated : bool) (items : list class_item)
  | TLit (c : ascii).

Inductive lexer_state : Type :=
  | Outside
  | InClass (negated : bool) (items : list class_item).

Fixpoint tokens (st : lexer_state) (p : list ascii) : list token :=
  match st, p with
  | Outside, [] => []
  | Outside, "*"%char :: r => TStar :: tokens Outside r
  | Outside, "?"%char :: r => TAny :: tokens Outside r
  | Outside, "["%char :: "^"%char :: r => tokens (InClass true []) r
  | Outside, "["%char :: r => tokens (InClass false []) r
  | Outside, "\"%char :: c :: r => TLit c :: tokens Outside r
  | Outside, c :: r => TLit c :: tokens Outside r
  | InClass neg items, [] => [TClass neg (rev items)]
  | InClass neg items, "\"%char :: c :: r =>
      tokens (InClass neg (CChar c :: items)) r
  | InClass neg items, "]"%char :: r =>
      TClass neg (rev items) :: tokens Outside r
  | InClass neg items, lo :: "-"%char :: hi :: r =>
      tokens (InClass neg (CRange lo hi :: items)) r
  | InClass neg items, c :: r => tokens (InClass neg (CChar c :: items)) r
  end.

Definition code (c : ascii) : nat := nat_of_ascii c.

Definition item_matches (c : ascii) (i : class_item) : bool :=
  match i with
  | CChar c' => Ascii.eqb c c'
  | CRange lo hi =>
      (Nat.leb (Nat.min (code lo) (code hi)) (code c)
       && Nat.leb (code c) (Nat.max (code lo) (code hi)))%bool
  end.

Fixpoint matches (ts : list token) (s : list ascii) {struct ts} : bool :=
  match ts with
  | [] => match s with [] => true | _ => false end
  | TStar :: ts' =>
      (fix star (s : list ascii) : bool :=
         matches ts' s
         || match s with
            | [] => false
            | _ :: s' => star s'
            end) s
  | TAny :: ts' =>
      match s with
      | [] => false
      | _ :: s' => matches ts' s'
      end
  | TClass neg items :: ts' =>
      match s with
      | [] => false
      | c :: s' => xorb neg (existsb (item_matches c) items) && matches ts' s'
      end
  | TLit c :: ts' =>
      match s with
      | [] => false
      | c' :: s' => Ascii.eqb c c' && matches ts' s'
      end
  end.

Definition glob (pattern key : string) : bool :=
  matches (tokens Outside (list_ascii_of_string pattern))
          (list_ascii_of_string key).

(** The characters that a pattern does not take literally. *)
Definition is_meta (c : ascii) : bool :=
  (Ascii.eqb c "*" || Ascii.eqb c "?" || Ascii.eqb c "[" || Ascii.eqb c "\")%char.

Definition literal (s : string) : bool :=
  forallb (fun c => negb (is_meta c)) (list_ascii_of_string s).

End Glob.

Module RedisClient.

(** Every command first consumes one entry of the failure plan. *)
Definition command {R A} (run : Redis -> A * Redis) : block R A :=
  fun w =>
    let rd := w_redis w in
    let rd1 := mkRedis (rd_keys rd) (tl (rd_faults rd)) in
    if hd false (rd_faults rd)
    then (Raised Py.RedisError, with_redis (fun _ => rd1) w)
    else (Normal (fst (run rd1)), with_redis (fun _ => snd (run rd1)) w).

Fixpoint find (key : string) (ks : list (string * (Z * cached)))
  : option cached :=
  match ks with
  | [] => None
  | (k, (_, v)) :: rest => if String.eqb key k then Some v else find key rest
  end.

Definition remove (key : string) (ks : list (string * (Z * cached)))
  : list (string * (Z * cached)) :=
  filter (fun kv => negb (String.eqb key (fst kv))) ks.

Definition remove_all (keys : list string)
    (ks : list (string * (Z * cached))) : list (string * (Z * cached)) :=
  filter (fun kv => negb (existsb (String.eqb (fst kv)) keys)) ks.

(** [redis.get(key)] *)
Definition get {R} (key : string) : block R (option cached) :=
  emit (EvRedisGet key) ;;
  command (fun rd => (find key (rd_keys rd), rd)).

(** [redis.setex(key, seconds, value)] *)
Definition setex {R} (key : string) (seconds : Z) (value : cached)
  : block R unit :=
  emit (EvRedisSetex key seconds) ;;
  command (fun rd =>
    (tt, mkRedis ((key, (seconds, value)) :: remove key (rd_keys rd))
                 (rd_faults rd))).

(** [redis.keys(pattern)] *)
Definition keys {R} (pattern : string) : block R (list string) :=
  emit (EvRedisKeys pattern) ;;
  command (fun rd =>
    (filter (Glob.glob pattern) (map fst (rd_keys rd)), rd)).

(** [redis.delete] applied to the unpacked list of keys *)
Definition delete {R} (ks : list string) : block R unit :=
  emit (EvRedisDelete ks) ;;
  command (fun rd =>
    (tt, mkRedis (remove_all ks (rd_keys rd)) (rd_faults rd))).

End RedisClient.

(* ================================================================== *)
(** * Review cache: [reviews.py], lines 57-132 *)
(* ================================================================== *)

Definition is_nonempty {A} (l : list A) : bool :=
  match l with [] => false | _ => true end.

(** [json.loads(cached_data) if cached_data else None] *)
Definition loads_cached (cached_data : option cached)
  : Py.result (option Json) :=
  match cached_data with
  | None => Py.Ok None
  | Some (Malformed "") => Py.Ok None
  | Some (Malformed _) => Py.Raise Py.ValueError
  | Some (Dumped doc) => Py.Ok (Some doc)
  end.

Definition option_truthy (result : option Json) : bool :=
  match result with
  | Some doc => PyJson.truthy doc
  | None => false
  end.

Definition get_cached_reviews (cache_key : string)
  : block (option Json) (option Json) :=
  try_except
    (cached_data <- RedisClient.get cache_key ;;
     result <- eval (loads_cached cached_data) ;;
     (if option_truthy result
      then log Debug ("CACHE HIT: " ++ cache_key)
      else log Debug ("CACHE MISS: " ++ cache_key)) ;;
     return_ result)
    (fun e => Some (log Warning "Redis cache retrieval error" ;;
                    return_ None)).

Definition cache_reviews (cache_key : string) (reviews : Json)
    (expire_seconds : Z) : block unit unit :=
  try_except
    (RedisClient.setex cache_key expire_seconds (Dumped reviews) ;;
     log Debug ("CACHE SET: " ++ cache_key))
    (fun e => Some (log Warning "Redis cache storage error")).

Definition place_data_keys (place_id : string) : list string :=
  [ "hotels:" ++ place_id;
    "restaurants:" ++ place_id;
    "things-to-do:" ++ place_id ].

Definition invalidate_caches (place_id : string) : block unit unit :=
  emit (EvInvalidate place_id) ;;
  try_except
    (let place_review_pattern := "url:/reviews/" ++ place_id ++ "*" in
     place_keys <- RedisClient.keys place_review_pattern ;;
     let keys_to_delete :=
       ((if is_nonempty place_keys then place_keys else [])
        ++ place_data_keys place_id)%list in
     when (is_nonempty keys_to_delete)
       (RedisClient.delete keys_to_delete ;;
        log Debug "CACHE INVALIDATED: place keys") ;;
     let all_reviews_pattern := "url:/reviews/all*" in
     all_reviews_keys <- RedisClient.keys all_reviews_pattern ;;
     when (is_nonempty all_reviews_keys)
       (RedisClient.delete all_reviews_keys ;;
        log Debug "CACHE INVALIDATED: all-reviews keys"))
    (fun e => Some (log Warning "Redis cache invalidation error")).

(* ================================================================== *)
(** * The relational store behind [db.session] *)
(* ================================================================== *)

Module Store.

(** The store after one entry of the failure plan has been consumed. *)
Definition next_trip (db : Db) : Db :=
  mkDb (db_users db) (db_reviews db) (db_session db) (tl (db_faults db))
       (db_next_id db) (db_clock db).

(** One round trip to the database: it raises what the failure plan says. *)
Definition round_trip {R A} (run : Db -> A * Db) : block R A :=
  fun w =>
    match hd None (db_faults (w_db w)) with
    | Some e =>
        (Raised (exn_of_store_error e), with_db next_trip w)
    | None =>
        (Normal (fst (run (next_trip (w_db w)))),
         with_db (fun db => snd (run (next_trip db))) w)
    end.

(** The rows a query sees: the session's working copy when there is one. *)
Definition rows (db : Db) : list UserReview :=
  match db_session db with
  | Some working => working
  | None => db_reviews db
  end.

Definition option_string_eqb (a b : option string) : bool :=
  match a, b with
  | Some x, Some y => String.eqb x y
  | None, None => true
  | _, _ => false
  end.

(** [column == value] as SQLAlchemy renders it: [IS NULL] for [None]. *)
Definition by_user_and_place (user_id : option string) (place_id : string)
    (r : UserReview) : bool :=
  option_string_eqb (r_user_id r) user_id && String.eqb (r_place_id r) place_id.

Definition by_place (place_id : string) (r : UserReview) : bool :=
  String.eqb (r_place_id r) place_id.

Definition find_user (users : list User) (id : option string) : option User :=
  match id with
  | Some i => List.find (fun u => String.eqb (u_id u) i) users
  | None => None
  end.

(** [JOIN users ON user_reviews.user_id = users.id]: a row whose [user_id]
    is NULL or names no user joins nothing. *)
Fixpoint join_users (users : list User) (rs : list UserReview)
  : list (UserReview * User) :=
  match rs with
  | [] => []
  | r :: rest =>
      match find_user users (r_user_id r) with
      | Some u => (r, u) :: join_users users rest
      | None => join_users users rest
      end
  end.

(** [User.query.filter_by(id=user_id).first()] *)
Definition user_first {R} (user_id : option string) : block R (option User) :=
  round_trip (fun db => (find_user (db_users db) user_id, db)).

(** [UserReview.query.filter_by(user_id=..., place_id=...).first()] *)
Definition review_first {R} (user_id : option string) (place_id : string)
  : block R (option UserReview) :=
  round_trip (fun db =>
    (List.find (by_user_and_place user_id place_id) (rows db), db)).

(** [db.session.query(UserReview, User).join(...).filter(...).first()] *)
Definition review_with_user_first {R} (user_id : option string)
    (place_id : string) : block R (option (UserReview * User)) :=
  round_trip (fun db =>
    (hd_error (join_users (db_users db)
                 (filter (by_user_and_place user_id place_id) (rows db))),
     db)).

(** [ORDER BY]: a stable insertion sort; [le a b] says that [a] may come
    before [b].  The store leaves the order of ties open; the model keeps
    the table order. *)
Fixpoint insert_row {A} (le : A -> A -> bool) (x : A) (l : list A) : list A :=
  match l with
  | [] => [x]
  | y :: rest => if le x y then x :: l else y :: insert_row le x rest
  end.

Fixpoint order_rows {A} (le : A -> A -> bool) (l : list A) : list A :=
  match l with
  | [] => []
  | x :: rest => insert_row le x (order_rows le rest)
  end.

Inductive sort_key : Type :=
  | KInt (z : Z)
  | KStr (s : string).

Definition key_leb (a b : sort_key) : bool :=
  match a, b with
  | KInt x, KInt y => x <=? y
  | KStr x, KStr y => String.leb x y
  | KInt _, KStr _ => true
  | KStr _, KInt _ => false
  end.

(** [sort_column.asc()] when [order == 'asc'], else [sort_column.desc()]. *)
Definition row_le (column : UserReview -> sort_key) (order : string)
    (a b : UserReview * User) : bool :=
  if String.eqb order "asc"
  then key_leb (column (fst a)) (column (fst b))
  else key_leb (column (fst b)) (column (fst a)).

(** [.count()] *)
Definition count {R} (keep : UserReview -> bool) : block R Z :=
  round_trip (fun db => (Z.of_nat (List.length (filter keep (rows db))), db)).

(** [query.order_by(...).offset(offset).limit(size).all()] *)
Definition page {R} (keep : UserReview -> bool)
    (column : UserReview -> sort_key) (order : string) (offset size : Z)
  : block R (list (UserReview * User)) :=
  round_trip (fun db =>
    (firstn (Z.to_nat size)
       (skipn (Z.to_nat offset)
          (order_rows (row_le column order)
             (join_users (db_users db) (filter keep (rows db))))),
     db)).

Definition set_session (working : list UserReview) (db : Db) : Db :=
  mkDb (db_users db) (db_reviews db) (Some working) (db_faults db)
       (db_next_id db) (db_clock db).

(** [db.session.add(UserReview(...))]: the row enters the working copy with
    the identifier and the timestamps that the store will give it. *)
Definition add {R} (user_id : option string) (place_id : string)
    (rating : Z) (review : Json) : block R UserReview :=
  fun w =>
    let db := w_db w in
    let row := mkReview (db_next_id db) user_id place_id rating review
                        (db_clock db) (db_clock db) in
    (Normal row,
     with_db (fun _ =>
       mkDb (db_users db) (db_reviews db) (Some (rows db ++ [row])%list)
            (db_faults db) (db_next_id db + 1) (db_clock db)) w).

(** Assignment to attributes of a loaded row: the working copy holds the new
    state of the row, stamped with the store's clock. *)
Definition assign {R} (row : UserReview) (rating : Z) (review : Json)
  : block R UserReview :=
  fun w =>
    let db := w_db w in
    let row' := mkReview (r_id row) (r_user_id row) (r_place_id row)
                         rating review (r_created_at row) (db_clock db) in
    (Normal row',
     with_db (set_session
       (map (fun r => if r_id r =? r_id row then row' else r) (rows db))) w).

(** [db.session.delete(review)] *)
Definition delete {R} (row : UserReview) : block R unit :=
  modify (fun w =>
    with_db (set_session
      (filter (fun r => negb (r_id r =? r_id row)) (rows (w_db w)))) w).

(** [db.session.commit()]: when the round trip succeeds the working copy
    becomes the table; when it raises nothing is written and the session
    stays as it is until it is rolled back.  Either way the outcome is
    recorded. *)
Definition commit {R} : block R unit :=
  fun w =>
    match hd None (db_faults (w_db w)) with
    | Some e =>
        (Raised (exn_of_store_error e),
         with_trace (fun t => (t ++ [EvCommitFailed e])%list)
                    (with_db next_trip w))
    | None =>
        (Normal tt,
         with_trace (fun t => (t ++ [EvCommit])%list)
           (with_db (fun db =>
              mkDb (db_users db) (rows db) None (tl (db_faults db))
                   (db_next_id db) (db_clock db + 1)) w))
    end.

(** [db.session.rollback()] *)
Definition rollback {R} : block R unit :=
  modify (with_db (fun db =>
    mkDb (db_users db) (db_reviews db) None (db_faults db)
         (db_next_id db) (db_clock db))) ;;
  emit EvRollback.

End Store.

(* ================================================================== *)
(** * Collaborators from [app.utils] *)
(* ================================================================== *)

(** [check_place_exists]: a boolean oracle over the graph store. *)
Definition check_place_exists {R} (place_id : string) : block R bool :=
  w <- get_world ;;
  pure (existsb (String.eqb place_id) (w_places w)).

(** [update_place_rating_histogram(place_id, old_rating=None,
    new_rating=None)]: opaque; the call is recorded. *)
Definition update_place_rating_histogram {R} (place_id : string)
    (old_rating new_rating : option Z) : block R unit :=
  emit (EvHistogram place_id old_rating new_rating).

(** [update_user_preference_cache(user_id)]: opaque; the call is recorded. *)
Definition update_user_preference_cache {R} (user_id : option string)
  : block R unit :=
  emit (EvPreference user_id).

(** Modelled from the spec: [create_paging] of [app.utils], which is not
    among the sources.  The paging envelope is
    [{items, page, size, total_count, total_pages}] with
    [total_pages = ceil(total_count / size)]. *)
Definition create_paging (data : list Json) (page size offset total_count : Z)
  : Json :=
  JObj [ ("items", JList data);
         ("page", JInt page);
         ("size", JInt size);
         ("total_count", JInt total_count);
         ("total_pages", JInt ((total_count + size - 1) / size)) ].

(** [datetime.isoformat()] of an opaque timestamp. *)
Definition isoformat (t : Z) : string := Py.str_of_int t.

Definition json_of_option_string (s : option string) : Json :=
  match s with
  | Some x => JStr x
  | None => JNull
  end.

(* ================================================================== *)
(** * The views of [reviews.py] *)
(* ================================================================== *)

Import CacheKey.

Definition is_some {A} (x : option A) : bool :=
  match x with Some _ => true | None => false end.

(** The dict that the views build for a review; [user_fields] is the
    ['user'] entry, which differs from view to view. *)
Definition review_json (review : UserReview) (user_fields : list (string * Json))
  : Json :=
  JObj [ ("id", JStr (Py.str_of_int (r_id review)));
         ("user", JObj user_fields);
         ("place_id", JStr (r_place_id review));
         ("rating", JInt (r_rating review));
         ("review", r_review review);
         ("created_at", JStr (isoformat (r_created_at review)));
         ("updated_at", JStr (isoformat (r_updated_at review))) ].

(** Lines 141-148 and 371-378: parse the JSON body. *)
Definition parse_json_body (req : Request) : block Response Json :=
  try_except
    (data <- eval (req_json req) ;;
     when (negb (PyJson.truthy data))
       (return_ (error_response "Request body must be valid JSON" 400)) ;;
     pure data)
    (fun e => Some (log Error "JSON parsing error" ;;
                    return_ (error_response "Invalid JSON format" 400))).

(** Lines 154-162 and 388-397: validate the rating. *)
Definition parse_rating (data : Json) : block Response Z :=
  try_except
    (raw <- eval (PyJson.getitem "rating" data) ;;
     rating <- eval (PyJson.to_int raw) ;;
     when ((rating <? 1) || (rating >? 5))
       (return_ (error_response "Rating must be between 1 and 5" 400)) ;;
     pure rating)
    (fun e =>
       if Py.is_value_or_type_error e
       then Some (return_ (error_response
                    "Rating must be a valid integer between 1 and 5" 400))
       else None).

Definition create_review (req : Request) (place_id : string)
  : block Response Response :=
  let user_id := req_identity req in
  data <- parse_json_body req ;;
  has_rating <- eval (PyJson.contains_key "rating" data) ;;
  missing <- (if negb has_rating then pure true
              else has_review <- eval (PyJson.contains_key "review" data) ;;
                   pure (negb has_review)) ;;
  when missing (return_ (error_response "Rating and review are required" 400)) ;;
  rating <- parse_rating data ;;
  place_exists <- check_place_exists place_id ;;
  when (negb place_exists) (return_ (error_response "Place not found" 404)) ;;
  found <- Store.user_first user_id ;;
  match found with
  | None => return_ (error_response "User not found. Please log in again." 401)
  | Some user =>
    try_except
      (existing_review <- Store.review_first user_id place_id ;;
       when (is_some existing_review)
         (return_ (error_response "You have already reviewed this place" 400)) ;;
       text <- eval (PyJson.getitem "review" data) ;;
       review <- Store.add user_id place_id rating text ;;
       Store.commit ;;
       update_place_rating_histogram place_id None (Some rating) ;;
       call (invalidate_caches place_id) ;;
       update_user_preference_cache user_id ;;
       log Debug "REVIEW CREATED" ;;
       return_ (mkResponse 201
         (review_json review
            [ ("full_name", JStr (u_full_name user));
              ("avatar", json_of_option_string (u_avatar user)) ])))
      (fun e =>
         match e with
         | Py.IntegrityError m =>
             Some (Store.rollback ;;
                   log Error "Integrity error creating review" ;;
                   if Py.contains "user_reviews_user_id_fkey" m
                   then return_ (error_response
                          "User not found. Please log in again." 401)
                   else if Py.contains "unique_user_review" m
                   then return_ (error_response
                          "You have already reviewed this place" 400)
                   else return_ (error_response
                          "Failed to create review due to data constraint" 400))
         | Py.SQLAlchemyError _ =>
             Some (Store.rollback ;;
                   log Error "Error creating review" ;;
                   return_ (error_response "Failed to create review" 500))
         | _ => None
         end)
  end.

Fixpoint lookup_arg (name : string) (args : list (string * string))
  : option string :=
  match args with
  | [] => None
  | (k, v) :: rest => if String.eqb name k then Some v else lookup_arg name rest
  end.

(** [request.args.get(name, default=..., type=int)]: a value that [int]
    rejects gives the default. *)
Definition args_get_int (req : Request) (name : string) (default : Z) : Z :=
  match lookup_arg name (req_args req) with
  | None => default
  | Some v =>
      match Py.int_of_str v with
      | Py.Ok z => z
      | Py.Raise _ => default
      end
  end.

(** [request.args.get(name, default=..., type=str)] *)
Definition args_get_str (req : Request) (name : string) (default : string)
  : string :=
  match lookup_arg name (req_args req) with
  | None => default
  | Some v => v
  end.

Definition member (x : string) (l : list string) : bool :=
  existsb (String.eqb x) l.

(** Lines 254-276 and 523-545: validate pagination and sorting. *)
Definition validate_listing (page size : Z) (sort_by order : string)
    (valid_sort_fields : list string) : block Response unit :=
  let valid_orders := ["asc"; "desc"] in
  when (page <? 1)
    (return_ (error_response "Page must be greater than 0" 400)) ;;
  when ((size <? 1) || (size >? 100))
    (return_ (error_response "Size must be between 1 and 100" 400)) ;;
  when (negb (member sort_by valid_sort_fields))
    (return_ (error_response
       ("Invalid sort_by. Must be one of: " ++ Py.join ", " valid_sort_fields)
       400)) ;;
  when (negb (member order valid_orders))
    (return_ (error_response
       ("Invalid order. Must be one of: " ++ Py.join ", " valid_orders) 400)).

Definition get_place_reviews (req : Request) (place_id : string)
  : block Response Response :=
  let page := args_get_int req "page" 1 in
  let size := args_get_int req "size" 10 in
  let sort_by := args_get_str req "sort_by" "created_at" in
  let order := args_get_str req "order" "desc" in
  validate_listing page size sort_by order
    ["rating"; "updated_at"; "created_at"] ;;
  let offset := (page - 1) * size in
  place_exists <- check_place_exists place_id ;;
  when (negb place_exists) (return_ (error_response "Place not found" 404)) ;;
  let cache_key :=
    get_reviews_cache_key place_id
      [ ("page", PInt page); ("size", PInt size);
        ("sort_by", PStr sort_by); ("order", PStr order) ] in
  cached_data <- call (get_cached_reviews cache_key) ;;
  match cached_data with
  | Some doc => return_ (mkResponse 200 doc)
  | None =>
    try_except
      (total_count <- Store.count (Store.by_place place_id) ;;
       let sort_column r :=
         if String.eqb sort_by "rating" then Store.KInt (r_rating r)
         else if String.eqb sort_by "updated_at"
         then Store.KInt (r_updated_at r)
         else Store.KInt (r_created_at r) in
       reviews <- Store.page (Store.by_place place_id) sort_column order
                    offset size ;;
       let reviews_data :=
         map (fun ru : UserReview * User =>
                review_json (fst ru)
                  [ ("full_name", JStr (u_full_name (snd ru)));
                    ("avatar", json_of_option_string (u_avatar (snd ru)));
                    ("user_id", JStr (u_id (snd ru))) ])
             reviews in
       let response := create_paging reviews_data page size offset total_count in
       call (cache_reviews cache_key response 3600) ;;
       log Debug "DB QUERY: Reviews for place" ;;
       return_ (mkResponse 200 response))
      (fun e =>
         if Py.is_sqlalchemy_error e
         then Some (log Error "Error fetching reviews" ;;
                    return_ (error_response "Failed to fetch reviews" 500))
         else None)
  end.

(** [review.user], loaded with the row. *)
Definition user_of {R} (review : UserReview) : block R User :=
  w <- get_world ;;
  match Store.find_user (db_users (w_db w)) (r_user_id review) with
  | Some u => pure u
  | None => raise Py.AttributeError
  end.

Definition update_review (req : Request) (place_id : string)
  : block Response Response :=
  let user_id := req_identity req in
  data <- parse_json_body req ;;
  has_rating <- eval (PyJson.contains_key "rating" data) ;;
  nothing <- (if has_rating then pure false
              else has_review <- eval (PyJson.contains_key "review" data) ;;
                   pure (negb has_review)) ;;
  when nothing
    (return_ (error_response
       "At least one field (rating or review) must be provided" 400)) ;;
  rating <- (if has_rating
             then r <- parse_rating data ;; pure (Some r)
             else pure None) ;;
  place_exists <- check_place_exists place_id ;;
  when (negb place_exists) (return_ (error_response "Place not found" 404)) ;;
  try_except
    (found <- Store.review_first user_id place_id ;;
     match found with
     | None => return_ (error_response "Review not found" 404)
     | Some review =>
       let old_rating := r_rating review in
       review <- match rating with
                 | Some r => Store.assign review r (r_review review)
                 | None => pure review
                 end ;;
       has_review <- eval (PyJson.contains_key "review" data) ;;
       review <- (if has_review
                  then text <- eval (PyJson.getitem "review" data) ;;
                       Store.assign review (r_rating review) text
                  else pure review) ;;
       Store.commit ;;
       when (has_rating && negb (old_rating =? r_rating review))
         (update_place_rating_histogram place_id (Some old_rating)
            (Some (r_rating review))) ;;
       call (invalidate_caches place_id) ;;
       update_user_preference_cache user_id ;;
       log Debug "REVIEW UPDATED" ;;
       user <- user_of review ;;
       return_ (mkResponse 200
         (review_json review
            [ ("full_name", JStr (u_full_name user));
              ("avatar", json_of_option_string (u_avatar user)) ]))
     end)
    (fun e =>
       if Py.is_sqlalchemy_error e
       then Some (Store.rollback ;;
                  log Error "Error updating review" ;;
                  return_ (error_response "Failed to update review" 500))
       else None).

Definition delete_review (req : Request) (place_id : string)
  : block Response Response :=
  let user_id := req_identity req in
  place_exists <- check_place_exists place_id ;;
  when (negb place_exists) (return_ (error_response "Place not found" 404)) ;;
  try_except
    (found <- Store.review_first user_id place_id ;;
     match found with
     | None => return_ (error_response "Review not found" 404)
     | Some review =>
       let old_rating := r_rating review in
       Store.delete review ;;
       Store.commit ;;
       update_place_rating_histogram place_id (Some old_rating) None ;;
       call (invalidate_caches place_id) ;;
       update_user_preference_cache user_id ;;
       log Debug "REVIEW DELETED" ;;
       return_ (mkResponse 200
                  (JObj [("message", JStr "Review deleted successfully")]))
     end)
    (fun e =>
       if Py.is_sqlalchemy_error e
       then Some (Store.rollback ;;
                  log Error "Error deleting review" ;;
                  return_ (error_response "Failed to delete review" 500))
       else None).

Definition get_all_reviews (req : Request) : block Response Response :=
  let page := args_get_int req "page" 1 in
  let size := args_get_int req "size" 20 in
  let sort_by := args_get_str req "sort_by" "created_at" in
  let order := args_get_str req "order" "desc" in
  validate_listing page size sort_by order
    ["rating"; "updated_at"; "created_at"; "place_id"] ;;
  let offset := (page - 1) * size in
  try_except
    (total_count <- Store.count (fun _ => true) ;;
     let sort_column r :=
       if String.eqb sort_by "rating" then Store.KInt (r_rating r)
       else if String.eqb sort_by "updated_at" then Store.KInt (r_updated_at r)
       else if String.eqb sort_by "place_id" then Store.KStr (r_place_id r)
       else Store.KInt (r_created_at r) in
     reviews <- Store.page (fun _ => true) sort_column order offset size ;;
     let reviews_data :=
       map (fun ru : UserReview * User =>
              review_json (fst ru)
                [ ("user_id", JStr (u_id (snd ru)));
                  ("full_name", JStr (u_full_name (snd ru)));
                  ("avatar", json_of_option_string (u_avatar (snd ru)));
                  ("email", JStr (u_email (snd ru))) ])
           reviews in
     let response := create_paging reviews_data page size offset total_count in
     return_ (mkResponse 200 response))
    (fun e =>
       if Py.is_sqlalchemy_error e
       then Some (log Error "Error fetching all reviews" ;;
                  return_ (error_response "Failed to fetch reviews" 500))
       else None).

Definition get_my_place_review (req : Request) (place_id : string)
  : block Response Response :=
  try_except
    (let user_id := req_identity req in
     place_exists <- check_place_exists place_id ;;
     when (negb place_exists) (return_ (error_response "Place not found" 404)) ;;
     review_query <- Store.review_with_user_first user_id place_id ;;
     match review_query with
     | None =>
         return_ (error_response "You have not reviewed this place yet" 404)
     | Some (review, user) =>
         return_ (mkResponse 200
           (review_json review
              [ ("user_id", JStr (u_id user));
                ("full_name", JStr (u_full_name user));
                ("avatar", json_of_option_string (u_avatar user)) ]))
     end)
    (fun e =>
       if Py.is_sqlalchemy_error e
       then Some (log Error "Error fetching user review" ;;
                  return_ (error_response "Failed to fetch review" 500))
       else None).

(** [get_user_place_review], lines 610-652.  The [uuid] of the path is
    compared with the column like any identity. *)
Definition get_user_place_review (user_id : string) (place_id : string)
  : block Response Response :=
  try_except
    (place_exists <- check_place_exists place_id ;;
     when (negb place_exists) (return_ (error_response "Place not found" 404)) ;;
     review_query <- Store.review_with_user_first (Some user_id) place_id ;;
     match review_query with
     | None => return_ (error_response "Review not found" 404)
     | Some (review, user) =>
         return_ (mkResponse 200
           (review_json review
              [ ("user_id", JStr (u_id user));
                ("full_name", JStr (u_full_name user));
                ("avatar", json_of_option_string (u_avatar user)) ]))
     end)
    (fun e =>
       if Py.is_sqlalchemy_error e
       then Some (log Error "Error fetching user review" ;;
                  return_ (error_response "Failed to fetch review" 500))
       else None).

(** ** Routes: the views behind their decorators

    [@jwt_required()] answers 401 by itself, without entering the view, when
    the request carries no identity; with [optional=True] the view runs and
    [get_jwt_identity()] is [None]. *)
Definition jwt_required (optional : bool)
    (view : Request -> string -> block Response Response)
    (req : Request) (place_id : string) : block Response Response :=
  match req_identity req with
  | Some _ => view req place_id
  | None =>
      if optional then view req place_id
      else return_ (mkResponse 401
                      (JObj [("msg", JStr "Missing Authorization Header")]))
  end.

Definition post_review := jwt_required false create_review.
Definition patch_review := jwt_required false update_review.
Definition delete_review_route := jwt_required false delete_review.
Definition get_my_review := jwt_required true get_my_place_review.

(* ================================================================== *)
(** * The blueprint error handler of [app/api/__init__.py] *)
(* ================================================================== *)

Module Werkzeug.
(** [InternalServerError.name], [InternalServerError.code] *)
Definition InternalServerError_name : string := "Internal Server Error".
Definition InternalServerError_code : Z := 500.
End Werkzeug.

Section ErrorHandler.

(** [APIResponse.error] lives in [app/utils/response.py], which is not among
    the sources: it is a parameter here. *)
Variable APIResponse_error : string -> Z -> Response.

(** [@bp.errorhandler(Exception)] *)
Definition exception_handler (e : Py.exn) : block Response Response :=
  log Error ("Unhandled exception: " ++ Py.str_of_exn e) ;;
  return_ (APIResponse_error Werkzeug.InternalServerError_name 200).

End ErrorHandler.

(* ================================================================== *)
(** * Properties of the cache key builder *)
(* ================================================================== *)

Section KeyOrder.

Lemma ascii_compare_refl (a : ascii) : Ascii.compare a a = Eq.
Proof. unfold Ascii.compare. apply N.compare_refl. Qed.

Lemma ascii_compare_lt_trans (a b c : ascii) :
  Ascii.compare a b = Lt -> Ascii.compare b c = Lt -> Ascii.compare a c = Lt.
Proof.
  unfold Ascii.compare. rewrite !N.compare_lt_iff. apply N.lt_trans.
Qed.

Lemma string_leb_trans (a b c : string) :
  String.leb a b = true -> String.leb b c = true -> String.leb a c = true.
Proof.
  unfold String.leb.
  revert b c. induction a as [|x a IH]; intros [|y b] [|z c]; simpl;
    try congruence.
  destruct (Ascii.compare x y) eqn:Exy; try congruence;
    destruct (Ascii.compare y z) eqn:Eyz; try congruence; intros Hab Hbc.
  - apply Ascii.compare_eq_iff in Exy, Eyz. subst.
    rewrite ascii_compare_refl. now apply IH with (b := b).
  - apply Ascii.compare_eq_iff in Exy. subst. now rewrite Eyz.
  - apply Ascii.compare_eq_iff in Eyz. subst. now rewrite Exy.
  - now rewrite (ascii_compare_lt_trans _ _ _ Exy Eyz).
Qed.

(** The order of two items of the dict: by name. *)
Definition item_le (x y : string * param) : Prop :=
  String.leb (fst x) (fst y) = true.

Lemma insert_item_perm (x : string * param) (l : params) :
  Permutation (x :: l) (insert_item x l).
Proof.
  induction l as [|y l IH]; simpl; [reflexivity|].
  destruct (String.leb (fst x) (fst y)); [reflexivity|].
  rewrite perm_swap. now constructor.
Qed.

Lemma sorted_items_perm (l : params) : Permutation l (sorted_items l).
Proof.
  induction l as [|x l IH]; simpl; [constructor|].
  rewrite <- insert_item_perm. now constructor.
Qed.

Lemma insert_item_sorted (x : string * param) (l : params) :
  StronglySorted item_le l -> StronglySorted item_le (insert_item x l).
Proof.
  induction 1 as [|y l Hl IH Hy]; simpl.
  - repeat constructor.
  - destruct (String.leb (fst x) (fst y)) eqn:E.
    + constructor; [now constructor|].
      constructor; [exact E|].
      eapply Forall_impl; [|exact Hy].
      intros z Hz. unfold item_le in *. eapply string_leb_trans; eauto.
    + constructor; [exact IH|].
      rewrite <- insert_item_perm. constructor; [|exact Hy].
      unfold item_le. destruct (String.leb_total (fst x) (fst y)); congruence.
Qed.

Lemma sorted_items_sorted (l : params) : StronglySorted item_le (sorted_items l).
Proof.
  induction l; simpl; [constructor | now apply insert_item_sorted].
Qed.

(** Two sorted arrangements of the items of one dict coincide. *)
Lemma sorted_unique (l1 l2 : params) :
  NoDup (map fst l1) -> Permutation l1 l2 ->
  StronglySorted item_le l1 -> StronglySorted item_le l2 -> l1 = l2.
Proof.
  revert l2. induction l1 as [|x l1 IH]; intros l2 Hnd Hp H1 H2.
  - now apply Permutation_nil in Hp.
  - destruct l2 as [|y l2].
    { symmetry in Hp. now apply Permutation_nil in Hp. }
    inversion H1 as [|? ? H1' Hx]; subst.
    inversion H2 as [|? ? H2' Hy]; subst.
    inversion Hnd as [|? ? Hnin Hnd']; subst.
    assert (Hxy : x = y).
    { assert (Hin : In x (y :: l2))
        by (eapply Permutation_in; [exact Hp | now left]).
      destruct Hin as [->|Hin]; [reflexivity|].
      assert (Hin' : In y (x :: l1))
        by (eapply Permutation_in; [symmetry; exact Hp | now left]).
      destruct Hin' as [->|Hin']; [reflexivity|].
      rewrite Forall_forall in Hx, Hy.
      pose proof (String.leb_antisym _ _ (Hx _ Hin') (Hy _ Hin)) as Hk.
      exfalso. apply Hnin. rewrite Hk. now apply in_map. }
    subst y. f_equal.
    apply IH; auto. now apply Permutation_cons_inv in Hp.
Qed.

Lemma sorted_items_permutation (l1 l2 : params) :
  NoDup (map fst l1) -> Permutation l1 l2 ->
  sorted_items l1 = sorted_items l2.
Proof.
  intros Hnd Hp. apply sorted_unique.
  - eapply Permutation_NoDup; [|exact Hnd].
    apply Permutation_map, sorted_items_perm.
  - rewrite <- (sorted_items_perm l1), <- (sorted_items_perm l2). exact Hp.
  - apply sorted_items_sorted.
  - apply sorted_items_sorted.
Qed.

Lemma key_with_params_permutation (base_key : string) (l1 l2 : params) :
  NoDup (map fst l1) -> Permutation l1 l2 ->
  key_with_params base_key l1 = key_with_params base_key l2.
Proof.
  intros Hnd Hp. unfold key_with_params, query_params.
  rewrite (sorted_items_permutation l1 l2 Hnd Hp).
  destruct l1, l2; try reflexivity.
  - now apply Permutation_nil_cons in Hp.
  - symmetry in Hp. now apply Permutation_nil_cons in Hp.
Qed.

End KeyOrder.

(** C2: two parameter dicts with the same (name, value) pairs, inserted in
    different orders, give the same cache key, in the place-review scheme and
    in the all-reviews scheme. *)
Theorem cache_key_insertion_order_irrelevant
    (place_id : string) (P1 P2 : params) :
  NoDup (map fst P1) ->
  Permutation P1 P2 ->
  get_reviews_cache_key place_id P1 = get_reviews_cache_key place_id P2
  /\ get_all_reviews_cache_key P1 = get_all_reviews_cache_key P2.
Proof.
  intros Hnd Hp. unfold get_reviews_cache_key, get_all_reviews_cache_key.
  split; now apply key_with_params_permutation.
Qed.

Definition listing_params_a : params :=
  [ ("page", PInt 2); ("size", PInt 10);
    ("sort_by", PStr "rating"); ("order", PStr "asc") ].

Definition listing_params_b : params :=
  [ ("order", PStr "asc"); ("sort_by", PStr "rating");
    ("page", PInt 2); ("size", PInt 10) ].

Lemma listing_params_nodup : NoDup (map fst listing_params_a).
Proof.
  simpl. repeat constructor; simpl; intuition discriminate.
Defined.

Lemma listing_params_permuted : Permutation listing_params_a listing_params_b.
Proof.
  unfold listing_params_a, listing_params_b.
  apply Permutation_trans with
    (l' := [ ("sort_by", PStr "rating"); ("order", PStr "asc");
             ("page", PInt 2); ("size", PInt 10) ]).
  - change (Permutation
      ([("page", PInt 2); ("size", PInt 10)] ++
       [("sort_by", PStr "rating"); ("order", PStr "asc")])%list
      ([("sort_by", PStr "rating"); ("order", PStr "asc")] ++
       [("page", PInt 2); ("size", PInt 10)])%list).
    apply Permutation_app_comm.
  - apply perm_swap.
Defined.

Lemma cache_key_insertion_order_witness :
  get_reviews_cache_key "hotel-1" listing_params_a
    = get_reviews_cache_key "hotel-1" listing_params_b
  /\ get_all_reviews_cache_key listing_params_a
    = get_all_reviews_cache_key listing_params_b.
Proof.
  exact (cache_key_insertion_order_irrelevant "hotel-1"
           listing_params_a listing_params_b
           listing_params_nodup listing_params_permuted).
Defined.

(* ================================================================== *)
(** * Observations on runs *)
(* ================================================================== *)

(** The arguments of the [redis.delete] calls of a trace, in order. *)
Fixpoint delete_calls (t : list Event) : list (list string) :=
  match t with
  | [] => []
  | EvRedisDelete ks :: rest => ks :: delete_calls rest
  | _ :: rest => delete_calls rest
  end.

(** The events that mark the steps of a write: the commit and its outcome,
    the rollback, and the three downstream effects. *)
Definition is_step (e : Event) : bool :=
  match e with
  | EvCommit | EvCommitFailed _ | EvRollback
  | EvHistogram _ _ _ | EvInvalidate _ | EvPreference _ => true
  | _ => false
  end.

Definition steps (t : list Event) : list Event := filter is_step t.

(** A cache in which nothing is stored and no command fails. *)
Definition empty_cache : Redis := mkRedis [] [].

(* ================================================================== *)
(** * Properties of the Redis patterns *)
(* ================================================================== *)

Section GlobFacts.
Import Glob.

Lemma tokens_literal_char (c : ascii) (r : list ascii) :
  is_meta c = false ->
  tokens Outside (c :: r) = TLit c :: tokens Outside r.
Proof.
  destruct c as [[] [] [] [] [] [] [] []]; simpl; intros H;
    try discriminate H; reflexivity.
Qed.

Lemma tokens_literal_prefix (p : string) (r : list ascii) :
  literal p = true ->
  tokens Outside (list_ascii_of_string p ++ r)
  = (map TLit (list_ascii_of_string p) ++ tokens Outside r)%list.
Proof.
  unfold literal. induction p as [|c p IH]; intros H; [reflexivity|].
  simpl in H. apply andb_true_iff in H. destruct H as [Hc Hp].
  apply negb_true_iff in Hc.
  change (list_ascii_of_string (String c p) ++ r)%list
    with (c :: (list_ascii_of_string p ++ r))%list.
  rewrite tokens_literal_char by exact Hc.
  rewrite IH by exact Hp. reflexivity.
Qed.

Lemma matches_star (s : list ascii) : matches [TStar] s = true.
Proof.
  induction s as [|c s IH]; [reflexivity|].
  simpl in *. exact IH.
Qed.

Lemma matches_literal_star (p key : string) :
  matches (map TLit (list_ascii_of_string p) ++ [TStar])
          (list_ascii_of_string key)
  = String.prefix p key.
Proof.
  revert key. induction p as [|c p IH]; intros key.
  - simpl map. simpl app. rewrite matches_star. now destruct key.
  - destruct key as [|c' key]; [reflexivity|].
    simpl. rewrite IH.
    destruct (ascii_dec c c') as [->|Hne].
    + now rewrite Ascii.eqb_refl.
    + apply Ascii.eqb_neq in Hne. now rewrite Hne.
Qed.

Lemma list_ascii_of_string_app (a b : string) :
  list_ascii_of_string (a ++ b)
  = (list_ascii_of_string a ++ list_ascii_of_string b)%list.
Proof. induction a; simpl; congruence. Qed.

(** A pattern made of literal text followed by a star selects the keys
    that start with the text. *)
Lemma glob_literal_star (p key : string) :
  literal p = true -> glob (p ++ "*") key = String.prefix p key.
Proof.
  intros H. unfold glob.
  rewrite list_ascii_of_string_app, tokens_literal_prefix by exact H.
  apply matches_literal_star.
Qed.

Lemma literal_app (a b : string) :
  literal (a ++ b) = literal a && literal b.
Proof.
  unfold literal. rewrite list_ascii_of_string_app. apply forallb_app.
Qed.

End GlobFacts.

Section StringFacts.

Lemma prefix_app (s t : string) : String.prefix s (s ++ t) = true.
Proof.
  induction s as [|c s IH]; simpl; [now destruct t|].
  destruct (ascii_dec c c); [exact IH | congruence].
Qed.

Lemma key_with_params_prefix (base_key : string) (P : params) :
  String.prefix base_key (key_with_params base_key P) = true.
Proof.
  unfold key_with_params. destruct P.
  - rewrite <- (prefix_app base_key ""). f_equal.
    induction base_key; simpl; congruence.
  - apply prefix_app.
Qed.

End StringFacts.

(* ================================================================== *)
(** * Cache invalidation *)
(* ================================================================== *)

Section Invalidation.

Lemma is_nonempty_app {A} (l : list A) (x : A) (r : list A) :
  is_nonempty (l ++ x :: r)%list = true.
Proof. now destruct l. Qed.

Lemma if_nonempty_self {A} (l : list A) :
  (if is_nonempty l then l else []) = l.
Proof. now destruct l. Qed.

(** What [invalidate_caches] does when no Redis command fails. *)
Lemma invalidate_caches_healthy places db ks trace place_id :
  let pattern := "url:/reviews/" ++ place_id ++ "*" in
  let place_keys := filter (Glob.glob pattern) (map fst ks) in
  let batch := (place_keys ++ place_data_keys place_id)%list in
  let ks1 := RedisClient.remove_all batch ks in
  let all_keys := filter (Glob.glob "url:/reviews/all*") (map fst ks1) in
  invalidate_caches place_id (mkWorld places db (mkRedis ks []) trace) =
  (Normal tt,
   mkWorld places db
     (mkRedis (if is_nonempty all_keys
               then RedisClient.remove_all all_keys ks1 else ks1) [])
     (trace ++ [EvInvalidate place_id; EvRedisKeys pattern;
                EvRedisDelete batch;
                EvLog Debug "CACHE INVALIDATED: place keys";
                EvRedisKeys "url:/reviews/all*"]
            ++ (if is_nonempty all_keys
                then [EvRedisDelete all_keys;
                      EvLog Debug "CACHE INVALIDATED: all-reviews keys"]
                else []))%list).
Proof.
  intros. unfold invalidate_caches.
  unfold try_except, RedisClient.keys, RedisClient.delete,
    RedisClient.command, log, when, emit, modify, bind.
  cbn [w_redis rd_faults hd tl with_trace with_redis w_places w_db w_trace
       rd_keys fst snd].
  rewrite if_nonempty_self.
  fold pattern. fold place_keys. fold batch.
  unfold batch at 1. unfold place_data_keys at 1. rewrite is_nonempty_app.
  cbn [w_redis rd_faults hd tl with_trace with_redis w_places w_db w_trace
       rd_keys fst snd].
  fold ks1. fold all_keys.
  destruct (is_nonempty all_keys);
    unfold with_trace, with_redis, pure;
    cbn [w_redis rd_faults hd tl w_places w_db w_trace rd_keys fst snd];
    rewrite <- !app_assoc; reflexivity.
Qed.

Lemma delete_calls_app (t1 t2 : list Event) :
  delete_calls (t1 ++ t2) = (delete_calls t1 ++ delete_calls t2)%list.
Proof.
  induction t1 as [|e t1 IH]; [reflexivity|].
  destruct e; simpl; now rewrite IH.
Qed.

Lemma existsb_eqb_in (k : string) (l : list string) :
  existsb (String.eqb k) l = true <-> In k l.
Proof.
  rewrite existsb_exists. split.
  - intros [x [Hin Heq]]. apply String.eqb_eq in Heq. now subst.
  - intros Hin. exists k. split; [exact Hin | apply String.eqb_refl].
Qed.

Lemma find_remove_all (k : string) (dels : list string) ks :
  (In k (map fst ks) -> In k dels) ->
  RedisClient.find k (RedisClient.remove_all dels ks) = None.
Proof.
  induction ks as [|[k' [ttl v]] ks IH]; intros H; [reflexivity|].
  unfold RedisClient.remove_all in *. simpl filter.
  destruct (existsb (String.eqb k') dels) eqn:E; simpl.
  - apply IH. intros Hin. apply H. now right.
  - destruct (String.eqb k k') eqn:Ek.
    + apply String.eqb_eq in Ek. subst k'.
      assert (Hd : In k dels) by (apply H; now left).
      apply existsb_eqb_in in Hd. congruence.
    + apply IH. intros Hin. apply H. now right.
Qed.

Lemma remove_all_keys_incl (dels : list string) ks (k : string) :
  In k (map fst (RedisClient.remove_all dels ks)) -> In k (map fst ks).
Proof.
  unfold RedisClient.remove_all. rewrite !in_map_iff.
  intros [kv [Hk Hin]]. apply filter_In in Hin. exists kv. tauto.
Qed.

Lemma remove_all_nil ks : RedisClient.remove_all [] ks = ks.
Proof.
  unfold RedisClient.remove_all.
  induction ks as [|kv ks IH]; [reflexivity|].
  simpl. f_equal. exact IH.
Qed.

Lemma not_in_remove_all (dels : list string) ks (k : string) :
  In k dels -> ~ In k (map fst (RedisClient.remove_all dels ks)).
Proof.
  intros Hd Hin. unfold RedisClient.remove_all in Hin.
  apply in_map_iff in Hin. destruct Hin as [kv [Hk Hin]].
  apply filter_In in Hin. destruct Hin as [_ Hneg].
  apply negb_true_iff in Hneg. subst k.
  apply existsb_eqb_in in Hd. congruence.
Qed.

Lemma glob_place_reviews (place_id key : string) :
  Glob.literal place_id = true ->
  Glob.glob ("url:/reviews/" ++ place_id ++ "*") key
  = String.prefix ("url:/reviews/" ++ place_id) key.
Proof.
  intros H.
  change ("url:/reviews/" ++ place_id ++ "*")
    with (("url:/reviews/" ++ place_id) ++ "*").
  apply glob_literal_star. rewrite literal_app, H. reflexivity.
Qed.

Lemma glob_all_reviews (key : string) :
  Glob.glob "url:/reviews/all*" key = String.prefix "url:/reviews/all" key.
Proof.
  change "url:/reviews/all*" with ("url:/reviews/all" ++ "*").
  now apply glob_literal_star.
Qed.

End Invalidation.

(** A cache that holds one listing page of place [hotel-1] and one page of
    the all-reviews listing. *)
Definition two_listings : World :=
  mkWorld ["hotel-1"] (mkDb [] [] None [] 1 0)
    (mkRedis
       [ ("url:/reviews/hotel-1?order=desc&page=1&size=10&sort_by=created_at",
          (3600, Dumped JNull));
         ("url:/reviews/all?order=desc&page=1&size=20&sort_by=created_at",
          (3600, Dumped JNull)) ]
       [])
    [].

(** C1, as stated, fails: with a cached page of the all-reviews listing the
    invalidation issues two [delete] calls, not one. *)
Lemma invalidate_caches_two_delete_calls :
  delete_calls (w_trace (snd (invalidate_caches "hotel-1" two_listings)))
  = [ [ "url:/reviews/hotel-1?order=desc&page=1&size=10&sort_by=created_at";
        "hotels:hotel-1"; "restaurants:hotel-1"; "things-to-do:hotel-1" ];
      [ "url:/reviews/all?order=desc&page=1&size=20&sort_by=created_at" ] ].
Proof. vm_compute. reflexivity. Qed.

(** C1, amended: for a [place_id] without glob metacharacters and a cache
    whose commands succeed, [invalidate_caches] ends normally; it deletes the
    listing keys of the place together with the three place-entity keys in
    one [delete] call, which is always issued, and the all-reviews listing
    keys in a second [delete] call, issued only when there are such keys.
    Afterwards no key of the place-review scheme for that place, no key of
    the all-reviews scheme and none of the three place-entity keys is
    cached, whatever the parameters. *)
Theorem invalidate_caches_deletes (place_id : string) (w : World) :
  Glob.literal place_id = true ->
  rd_faults (w_redis w) = [] ->
  let cached_keys := map fst (rd_keys (w_redis w)) in
  let place_keys :=
    filter (String.prefix ("url:/reviews/" ++ place_id)) cached_keys in
  let batch := (place_keys ++ place_data_keys place_id)%list in
  let all_keys :=
    filter (String.prefix "url:/reviews/all")
      (map fst (RedisClient.remove_all batch (rd_keys (w_redis w)))) in
  let w' := snd (invalidate_caches place_id w) in
  fst (invalidate_caches place_id w) = Normal tt
  /\ delete_calls (w_trace w')
     = (delete_calls (w_trace w) ++ [batch]
        ++ (if is_nonempty all_keys then [all_keys] else []))%list
  /\ (forall P : params,
        RedisClient.find (get_reviews_cache_key place_id P)
          (rd_keys (w_redis w')) = None)
  /\ (forall P : params,
        RedisClient.find (get_all_reviews_cache_key P)
          (rd_keys (w_redis w')) = None)
  /\ (forall place_type : string,
        In place_type ["hotel"; "restaurant"; "thing-to-do"] ->
        RedisClient.find (get_place_cache_key place_type place_id)
          (rd_keys (w_redis w')) = None).
Proof.
  intros Hlit Hplan.
  destruct w as [places db [ks plan] trace]. simpl in Hplan. subst plan.
  cbv beta iota delta [w_redis rd_keys w_trace].
  pose proof (invalidate_caches_healthy places db ks trace place_id) as Hrun.
  cbv zeta in Hrun.
  rewrite !(filter_ext _ _
              (fun key => glob_place_reviews place_id key Hlit)) in Hrun.
  rewrite !(filter_ext _ _ glob_all_reviews) in Hrun.
  intros cached_keys place_keys batch all_keys w'.
  fold cached_keys place_keys batch all_keys in Hrun.
  subst w'. rewrite Hrun. cbn [fst snd w_trace w_redis rd_keys].
  set (ks1 := RedisClient.remove_all batch ks) in *.
  assert (Hks2 : (if is_nonempty all_keys
                  then RedisClient.remove_all all_keys ks1 else ks1)
                 = RedisClient.remove_all all_keys ks1).
  { destruct all_keys; [now rewrite remove_all_nil | reflexivity]. }
  rewrite Hks2.
  split; [reflexivity|]. split.
  { rewrite !delete_calls_app. f_equal.
    destruct (is_nonempty all_keys); reflexivity. }
  assert (Hbatch : forall k, (In k cached_keys -> In k batch) ->
            RedisClient.find k (RedisClient.remove_all all_keys ks1) = None).
  { intros k Hk. apply find_remove_all. intros Hin. exfalso.
    apply (not_in_remove_all batch ks k); [|exact Hin].
    apply Hk. eapply remove_all_keys_incl. exact Hin. }
  split; [|split].
  - intros P. apply Hbatch. intros Hin.
    unfold batch. apply in_or_app. left. unfold place_keys.
    apply filter_In. split; [exact Hin|].
    apply key_with_params_prefix.
  - intros P. apply find_remove_all. intros Hin.
    unfold all_keys. apply filter_In. split; [exact Hin|].
    apply key_with_params_prefix.
  - intros place_type Hty. apply Hbatch. intros _.
    unfold batch. apply in_or_app. right.
    simpl in Hty.
    destruct Hty as [<-|[<-|[<-|[]]]]; simpl; auto.
Qed.

Lemma invalidate_caches_deletes_witness :
  let w' := snd (invalidate_caches "hotel-1" two_listings) in
  fst (invalidate_caches "hotel-1" two_listings) = Normal tt
  /\ delete_calls (w_trace w')
     = [ [ "url:/reviews/hotel-1?order=desc&page=1&size=10&sort_by=created_at";
           "hotels:hotel-1"; "restaurants:hotel-1"; "things-to-do:hotel-1" ];
         [ "url:/reviews/all?order=desc&page=1&size=20&sort_by=created_at" ] ]
  /\ (forall P : params,
        RedisClient.find (get_reviews_cache_key "hotel-1" P)
          (rd_keys (w_redis w')) = None)
  /\ (forall P : params,
        RedisClient.find (get_all_reviews_cache_key P)
          (rd_keys (w_redis w')) = None)
  /\ (forall place_type : string,
        In place_type ["hotel"; "restaurant"; "thing-to-do"] ->
        RedisClient.find (get_place_cache_key place_type "hotel-1")
          (rd_keys (w_redis w')) = None).
Proof.
  exact (invalidate_caches_deletes "hotel-1" two_listings eq_refl eq_refl).
Defined.

(* ================================================================== *)
(** * A logic of runs: outcome, new events, final world *)
(* ================================================================== *)

Section RunLogic.

Context {R A : Type}.

(** [sat c w Q]: running [c] from [w] extends the trace by some events
    [new], and [Q] holds of the outcome, of [new] and of the final world. *)
Definition sat (c : block R A) (w : World)
    (Q : outcome R A -> list Event -> World -> Prop) : Prop :=
  exists new,
    w_trace (snd (c w)) = (w_trace w ++ new)%list
    /\ Q (fst (c w)) new (snd (c w)).

Lemma sat_pure (a : A) (w : World) Q :
  Q (Normal a) [] w -> sat (pure a) w Q.
Proof. intros H. exists []. simpl. rewrite app_nil_r. now split. Qed.

Lemma sat_return (r : R) (w : World) Q :
  Q (Returned r) [] w -> sat (return_ r) w Q.
Proof. intros H. exists []. simpl. rewrite app_nil_r. now split. Qed.

Lemma sat_raise (e : Py.exn) (w : World) Q :
  Q (Raised e) [] w -> sat (raise e) w Q.
Proof. intros H. exists []. simpl. rewrite app_nil_r. now split. Qed.

Lemma sat_eval (x : Py.result A) (w : World) Q :
  match x with
  | Py.Ok a => Q (Normal a) [] w
  | Py.Raise e => Q (Raised e) [] w
  end ->
  sat (eval x) w Q.
Proof. destruct x; [apply sat_pure | apply sat_raise]. Qed.

Lemma sat_try (c : block R A) handler (w : World) Q :
  sat c w (fun o new w' =>
    match o with
    | Raised e =>
        match handler e with
        | Some h => sat h w' (fun o2 new2 w2 => Q o2 (new ++ new2)%list w2)
        | None => Q (Raised e) new w'
        end
    | _ => Q o new w'
    end) ->
  sat (try_except c handler) w Q.
Proof.
  unfold sat, try_except. intros [new [Ht HQ]].
  destruct (c w) as [[a|r|e] w1]; simpl in *; try (exists new; now split).
  destruct (handler e) as [h|]; [|exists new; now split].
  destruct HQ as [new2 [Ht2 HQ2]].
  exists (new ++ new2)%list. rewrite Ht2, Ht, app_assoc. now split.
Qed.

End RunLogic.

Section RunLogicSeq.

Context {R A B : Type}.

Lemma sat_bind (c : block R A) (k : A -> block R B) (w : World) Q :
  sat c w (fun o new w' =>
    match o with
    | Normal a => sat (k a) w' (fun o2 new2 w2 => Q o2 (new ++ new2)%list w2)
    | Returned r => Q (Returned r) new w'
    | Raised e => Q (Raised e) new w'
    end) ->
  sat (bind c k) w Q.
Proof.
  unfold sat, bind. intros [new [Ht HQ]].
  destruct (c w) as [[a|r|e] w1]; simpl in *; try (exists new; now split).
  destruct HQ as [new2 [Ht2 HQ2]].
  exists (new ++ new2)%list. rewrite Ht2, Ht, app_assoc. now split.
Qed.

End RunLogicSeq.

Section RunLogicPrimitives.

Context {R : Type}.

Lemma sat_call {R' : Type} (f : block R' R') (w : World)
    (Q : outcome R R' -> list Event -> World -> Prop) :
  sat f w (fun o new w' =>
    match o with
    | Normal r | Returned r => Q (Normal r) new w'
    | Raised e => Q (Raised e) new w'
    end) ->
  sat (call f) w Q.
Proof.
  unfold sat, call. intros [new [Ht HQ]]. exists new.
  destruct (f w) as [[a|r|e] w1]; simpl in *; now split.
Qed.

Lemma sat_emit (e : Event) (w : World)
    (Q : outcome R unit -> list Event -> World -> Prop) :
  Q (Normal tt) [e] (with_trace (fun t => (t ++ [e])%list) w) ->
  sat (emit e) w Q.
Proof. intros H. exists [e]. now split. Qed.

Lemma sat_log (lvl : level) (m : string) (w : World)
    (Q : outcome R unit -> list Event -> World -> Prop) :
  Q (Normal tt) [EvLog lvl m]
    (with_trace (fun t => (t ++ [EvLog lvl m])%list) w) ->
  sat (log lvl m) w Q.
Proof. apply sat_emit. Qed.

Lemma sat_get_world (w : World)
    (Q : outcome R World -> list Event -> World -> Prop) :
  Q (Normal w) [] w -> sat get_world w Q.
Proof. intros H. exists []. simpl. rewrite app_nil_r. now split. Qed.

Lemma sat_round_trip {A} (run : Db -> A * Db) (w : World)
    (Q : outcome R A -> list Event -> World -> Prop) :
  match hd None (db_faults (w_db w)) with
  | Some e => Q (Raised (exn_of_store_error e)) [] (with_db Store.next_trip w)
  | None =>
      Q (Normal (fst (run (Store.next_trip (w_db w))))) []
        (with_db (fun db => snd (run (Store.next_trip db))) w)
  end ->
  sat (Store.round_trip run) w Q.
Proof.
  intros H. exists []. unfold Store.round_trip.
  destruct (hd None (db_faults (w_db w))); simpl; rewrite app_nil_r;
    now split.
Qed.

Lemma sat_commit (w : World)
    (Q : outcome R unit -> list Event -> World -> Prop) :
  match hd None (db_faults (w_db w)) with
  | Some e =>
      Q (Raised (exn_of_store_error e)) [EvCommitFailed e]
        (with_trace (fun t => (t ++ [EvCommitFailed e])%list)
           (with_db Store.next_trip w))
  | None =>
      Q (Normal tt) [EvCommit]
        (with_trace (fun t => (t ++ [EvCommit])%list)
           (with_db (fun db =>
              mkDb (db_users db) (Store.rows db) None (tl (db_faults db))
                   (db_next_id db) (db_clock db + 1)) w))
  end ->
  sat Store.commit w Q.
Proof.
  intros H. unfold Store.commit, sat.
  destruct (hd None (db_faults (w_db w))) as [e|].
  - exists [EvCommitFailed e]. now split.
  - exists [EvCommit]. now split.
Qed.

Lemma sat_command {A} (run : Redis -> A * Redis) (w : World)
    (Q : outcome R A -> list Event -> World -> Prop) :
  (let rd1 := mkRedis (rd_keys (w_redis w)) (tl (rd_faults (w_redis w))) in
   if hd false (rd_faults (w_redis w))
   then Q (Raised Py.RedisError) [] (with_redis (fun _ => rd1) w)
   else Q (Normal (fst (run rd1))) [] (with_redis (fun _ => snd (run rd1)) w)) ->
  sat (RedisClient.command run) w Q.
Proof.
  intros H. exists []. unfold RedisClient.command. cbv zeta in *.
  destruct (hd false (rd_faults (w_redis w))); simpl; rewrite app_nil_r;
    now split.
Qed.

End RunLogicPrimitives.

(* ================================================================== *)
(** * Symbolic execution of the views *)
(* ================================================================== *)

Section RunLogicStore.

Context {R : Type}.

Lemma sat_add user_id place_id rating review (w : World)
    (Q : outcome R UserReview -> list Event -> World -> Prop) :
  (let db := w_db w in
   let row := mkReview (db_next_id db) user_id place_id rating review
                       (db_clock db) (db_clock db) in
   Q (Normal row) []
     (with_db (fun _ =>
        mkDb (db_users db) (db_reviews db) (Some (Store.rows db ++ [row])%list)
             (db_faults db) (db_next_id db + 1) (db_clock db)) w)) ->
  sat (Store.add user_id place_id rating review) w Q.
Proof. intros H. exists []. simpl. rewrite app_nil_r. now split. Qed.

Lemma sat_assign row rating review (w : World)
    (Q : outcome R UserReview -> list Event -> World -> Prop) :
  (let db := w_db w in
   let row' := mkReview (r_id row) (r_user_id row) (r_place_id row)
                        rating review (r_created_at row) (db_clock db) in
   Q (Normal row') []
     (with_db (Store.set_session
        (map (fun r => if r_id r =? r_id row then row' else r)
             (Store.rows db))) w)) ->
  sat (Store.assign row rating review) w Q.
Proof. intros H. exists []. simpl. rewrite app_nil_r. now split. Qed.

Lemma sat_modify (f : World -> World) (w : World)
    (Q : outcome R unit -> list Event -> World -> Prop) :
  w_trace (f w) = w_trace w ->
  Q (Normal tt) [] (f w) -> sat (modify f) w Q.
Proof. intros Ht H. exists []. simpl. rewrite app_nil_r. now split. Qed.
End RunLogicStore.

Lemma rows_next_trip (db : Db) : Store.rows (Store.next_trip db) = Store.rows db.
Proof. reflexivity. Qed.

(** Projections out of the worlds built by the rules. *)
Ltac project :=
  cbn [w_db w_redis w_places w_trace with_db with_trace with_redis
       db_users db_reviews db_session db_faults db_next_id db_clock
       rd_keys rd_faults Store.next_trip Store.set_session fst snd hd tl
       r_id r_user_id r_place_id r_rating r_review r_created_at r_updated_at
       u_id u_full_name u_avatar u_email negb andb orb is_some];
  rewrite ?rows_next_trip.

(** A term that mentions no hypothesis can be evaluated. *)
Ltac is_closed x :=
  let T := type of x in
  let _ := constr:(ltac:(repeat match goal with
                                | H : _ |- _ => clear H
                                end; exact x) : T) in
  idtac.

Ltac case_on x :=
  lazymatch x with
  | Py.Ok _ => idtac
  | Py.Raise _ => idtac
  | true => idtac
  | false => idtac
  | Some _ => idtac
  | None => idtac
  | _ =>
      lazymatch goal with
      | H : x = _ |- _ => rewrite H
      | _ =>
          tryif is_closed x
          then (let v := eval vm_compute in x in change x with v)
          else destruct x eqn:?
      end
  end.

Ltac split_head :=
  lazymatch goal with
  | |- if ?b then _ else _ => case_on b
  | |- match ?x with Some _ => _ | None => _ end =>
      lazymatch x with
      | None => idtac
      | Some _ => idtac
      | _ =>
          lazymatch goal with
          | H : x = _ |- _ => rewrite H
          | _ => destruct x as [[?|?]|] eqn:?
          end
      end; cbn [exn_of_store_error]
  end.

Ltac inner_scrutinee t :=
  lazymatch t with
  | match ?x with _ => _ end => inner_scrutinee x
  | _ => t
  end.

Ltac sat_step :=
  lazymatch goal with
  | |- sat (bind _ _) _ _ => apply sat_bind
  | |- sat (try_except _ _) _ _ => apply sat_try
  | |- sat (call _) _ _ => apply sat_call
  | |- sat (pure _) _ _ => apply sat_pure
  | |- sat (return_ _) _ _ => apply sat_return
  | |- sat (raise _) _ _ => apply sat_raise
  | |- sat (eval ?x) _ _ => apply sat_eval; case_on x
  | |- sat (when ?b _) _ _ => unfold when; case_on b
  | |- sat (emit _) _ _ => apply sat_emit
  | |- sat (log _ _) _ _ => apply sat_log
  | |- sat get_world _ _ => apply sat_get_world
  | |- sat (Store.round_trip _) _ _ =>
      apply sat_round_trip; project; split_head
  | |- sat Store.commit _ _ =>
      apply sat_commit; project; split_head
  | |- sat (RedisClient.command _) _ _ =>
      apply sat_command; cbv zeta; project; split_head
  | |- sat (Store.add _ _ _ _) _ _ => apply sat_add; cbv zeta
  | |- sat (Store.assign _ _ _) _ _ => apply sat_assign; cbv zeta
  | |- sat (modify _) _ _ => apply sat_modify; [reflexivity|]
  | |- sat (if ?b then _ else _) _ _ => case_on b
  | |- sat (match ?x with _ => _ end) _ _ => case_on x
  | |- match ?x with _ => _ end =>
      let y := inner_scrutinee x in case_on y
  end; cbv beta iota; project.


(** [invalidate_caches] never raises, touches neither the graph store nor
    the relational store, and adds no step of a write besides its own. *)
Lemma invalidate_caches_sat {R} (place_id : string) (w : World)
   (Q : outcome R unit -> list Event -> World -> Prop) :
  (forall rd new,
     steps new = [] ->
     Q (Normal tt) (EvInvalidate place_id :: new)
       (mkWorld (w_places w) (w_db w) rd
                (w_trace w ++ EvInvalidate place_id :: new)%list)) ->
  sat (call (invalidate_caches place_id)) w Q.
Proof.
  intros H.
  assert (Hs : sat (invalidate_caches place_id) w
     (fun o new w' => o = Normal tt /\ w_places w' = w_places w
         /\ w_db w' = w_db w /\ exists n, new = EvInvalidate place_id :: n /\ steps n = [])).
  { unfold invalidate_caches, RedisClient.keys, RedisClient.delete.
    repeat sat_step; project; repeat split; cbn [app]; eexists; split; reflexivity. }
  destruct Hs as [new [Ht [Ho [Hp [Hd [n [-> Hn]]]]]]].
  exists (EvInvalidate place_id :: n). unfold call.
  destruct (invalidate_caches place_id w) as [o w'] eqn:E. simpl in *. subst o.
  split; [exact Ht|].
  destruct w' as [p d r t]. simpl in *. subst. now apply H.
Qed.

Ltac sat_step' :=
  lazymatch goal with
  | |- sat (call (invalidate_caches _)) _ _ =>
      apply invalidate_caches_sat; intros ? ? ?
  | |- sat (Store.user_first _) _ _ => unfold Store.user_first
  | |- sat (Store.review_first _ _) _ _ => unfold Store.review_first
  | |- sat (Store.rollback) _ _ => unfold Store.rollback
  | |- sat (Store.delete _) _ _ => unfold Store.delete
  | |- sat (check_place_exists _) _ _ => unfold check_place_exists
  | |- sat (update_place_rating_histogram _ _ _) _ _ =>
      unfold update_place_rating_histogram
  | |- sat (update_user_preference_cache _) _ _ =>
      unfold update_user_preference_cache
  | |- sat (parse_json_body _) _ _ => unfold parse_json_body
  | |- sat (parse_rating _) _ _ => unfold parse_rating
  | |- sat (user_of _) _ _ => unfold user_of
  | |- _ => sat_step
  end.


(* ================================================================== *)
(** * Order of the effects of a write *)
(* ================================================================== *)





(** ** Example worlds *)

Definition alice : User := mkUser "u1" "Alice" None "alice@example.org".

(** Place [hotel-1] exists, Alice is registered, nobody has reviewed yet. *)
Definition fresh_world : World :=
  mkWorld ["hotel-1"] (mkDb [alice] [] None [] 1 100) empty_cache [].

(** Alice has reviewed [hotel-1] with four stars. *)
Definition reviewed_world : World :=
  mkWorld ["hotel-1"]
    (mkDb [alice]
       [mkReview 1 (Some "u1") "hotel-1" 4 (JStr "Great stay") 100 100]
       None [] 2 101)
    empty_cache [].

Definition great_stay : Request :=
  mkRequest (Some "u1")
    (Py.Ok (JObj [("rating", JInt 4); ("review", JStr "Great stay")])) [].


Definition five_stars : Request :=
  mkRequest (Some "u1") (Py.Ok (JObj [("rating", JInt 5)])) [].

Definition no_body : Request :=
  mkRequest (Some "u1") (Py.Raise Py.BadRequest) [].




(* ================================================================== *)
(** * A write whose commit raises *)
(* ================================================================== *)

(** The answer of [create_review] to a store error raised by the commit. *)
Definition create_failure (e : store_error) : Response :=
  match e with
  | Integrity m =>
      if Py.contains "user_reviews_user_id_fkey" m
      then error_response "User not found. Please log in again." 401
      else if Py.contains "unique_user_review" m
      then error_response "You have already reviewed this place" 400
      else error_response "Failed to create review due to data constraint" 400
  | Operational _ => error_response "Failed to create review" 500
  end.

(** What holds after a write whose commit raised [e]: the table is as
    before, the session is clean, the only steps are the failed commit and
    the rollback, and the view returns [answer]. *)
Definition aborted (w : World) (e : store_error) (answer : Response)
    (o : outcome Response Response) (new : list Event) (w' : World) : Prop :=
  db_reviews (w_db w') = db_reviews (w_db w)
  /\ db_session (w_db w') = None
  /\ steps new = [EvCommitFailed e; EvRollback]
  /\ o = Returned answer.

Lemma in_steps (x : Event) (l : list Event) :
  In x l -> is_step x = true -> In x (steps l).
Proof. intros. apply filter_In. now split. Qed.

Ltac steps_in H :=
  apply in_steps in H; [|reflexivity];
  unfold steps in H;
  repeat first [ rewrite filter_app in H
               | progress cbn [filter is_step app] in H ];
  repeat match goal with
         | Hn : steps ?n = [] |- _ =>
             change (filter is_step n) with (steps n) in H; rewrite Hn in H
         end;
  cbn [app] in H.

Ltac no_such_step H :=
  steps_in H;
  repeat (destruct H as [H|H]; [discriminate H|]); now destruct H.

Ltac aborted_leaf H :=
  steps_in H;
  destruct H as [H|[H|[]]]; [|discriminate H]; injection H as <-;
  unfold aborted; project; cbn [create_failure];
  repeat match goal with
         | Hc : Py.contains _ _ = _ |- _ => rewrite Hc; clear Hc
         end;
  repeat split; reflexivity.

Lemma create_review_aborted req pid w :
  sat (create_review req pid) w (fun o new w' =>
    forall e, In (EvCommitFailed e) new ->
      aborted w e (create_failure e) o new w').
Proof.
  unfold create_review.
  repeat sat_step'.
  all: intros err Hin.
  all: try (no_such_step Hin).
  all: aborted_leaf Hin.
Qed.

Lemma update_review_aborted req pid w :
  sat (update_review req pid) w (fun o new w' =>
    forall e, In (EvCommitFailed e) new ->
      aborted w e (error_response "Failed to update review" 500) o new w').
Proof.
  unfold update_review.
  repeat sat_step'.
  all: intros err Hin.
  all: try (no_such_step Hin).
  all: aborted_leaf Hin.
Qed.

Lemma delete_review_aborted req pid w :
  sat (delete_review req pid) w (fun o new w' =>
    forall e, In (EvCommitFailed e) new ->
      aborted w e (error_response "Failed to delete review" 500) o new w').
Proof.
  unfold delete_review.
  repeat sat_step'.
  all: intros err Hin.
  all: try (no_such_step Hin).
  all: aborted_leaf Hin.
Qed.

Lemma sat_elim {R A} (c : block R A) (w : World) Q :
  sat c w Q ->
  forall new, w_trace (snd (c w)) = (w_trace w ++ new)%list ->
    Q (fst (c w)) new (snd (c w)).
Proof.
  intros [new' [Ht HQ]] new Hnew. rewrite Ht in Hnew.
  apply app_inv_head in Hnew. now subst.
Qed.

Lemma run_view_returned (v : block Response Response) (w : World) r :
  fst (v w) = Returned r -> fst (run_view v w) = Py.Ok r.
Proof.
  unfold run_view. destruct (v w) as [[a|r'|e] w']; simpl; congruence.
Qed.

(** Bob's review of [hotel-1] is committed by a concurrent request after
    the pre-check of Alice's request: her commit violates the uniqueness
    constraint. *)
Definition lost_race : World :=
  mkWorld ["hotel-1"]
    (mkDb [alice] [] None
       [ None; None;
         Some (Integrity
           "duplicate key value violates unique constraint unique_user_review") ]
       1 100)
    empty_cache [].

(** C4, as stated, fails: when the commit of a create raises an integrity
    error the answer is 400, not 500. *)
Lemma create_integrity_error_is_not_500 :
  steps (w_trace (snd (create_review great_stay "hotel-1" lost_race)))
  = [ EvCommitFailed (Integrity
        "duplicate key value violates unique constraint unique_user_review");
      EvRollback ]
  /\ fst (run_view (create_review great_stay "hotel-1") lost_race)
     = Py.Ok (error_response "You have already reviewed this place" 400).
Proof. split; vm_compute; reflexivity. Qed.

(** C4, amended: when the commit of a write raises a store error, the
    session is rolled back, the table of reviews is as it was, none of the
    downstream effects is executed (the only steps are the failed commit and
    the rollback), and the request is answered 500; except that
    [create_review] answers an integrity error with 401 when it names the
    foreign key on the user and with 400 otherwise. *)
Theorem write_aborted_on_store_error
    (req : Request) (place_id : string) (w : World) (e : store_error) :
  (forall new,
     w_trace (snd (create_review req place_id w)) = (w_trace w ++ new)%list ->
     In (EvCommitFailed e) new ->
     let w' := snd (create_review req place_id w) in
     db_reviews (w_db w') = db_reviews (w_db w)
     /\ db_session (w_db w') = None
     /\ steps new = [EvCommitFailed e; EvRollback]
     /\ fst (run_view (create_review req place_id) w)
        = Py.Ok (create_failure e))
  /\ (forall new,
        w_trace (snd (update_review req place_id w)) = (w_trace w ++ new)%list ->
        In (EvCommitFailed e) new ->
        let w' := snd (update_review req place_id w) in
        db_reviews (w_db w') = db_reviews (w_db w)
        /\ db_session (w_db w') = None
        /\ steps new = [EvCommitFailed e; EvRollback]
        /\ fst (run_view (update_review req place_id) w)
           = Py.Ok (error_response "Failed to update review" 500))
  /\ (forall new,
        w_trace (snd (delete_review req place_id w)) = (w_trace w ++ new)%list ->
        In (EvCommitFailed e) new ->
        let w' := snd (delete_review req place_id w) in
        db_reviews (w_db w') = db_reviews (w_db w)
        /\ db_session (w_db w') = None
        /\ steps new = [EvCommitFailed e; EvRollback]
        /\ fst (run_view (delete_review req place_id) w)
           = Py.Ok (error_response "Failed to delete review" 500)).
Proof.
  split; [|split]; intros new Hnew Hin w'.
  - destruct (sat_elim _ _ _ (create_review_aborted req place_id w)
                new Hnew e Hin) as [H1 [H2 [H3 H4]]].
    repeat split; auto. now apply run_view_returned.
  - destruct (sat_elim _ _ _ (update_review_aborted req place_id w)
                new Hnew e Hin) as [H1 [H2 [H3 H4]]].
    repeat split; auto. now apply run_view_returned.
  - destruct (sat_elim _ _ _ (delete_review_aborted req place_id w)
                new Hnew e Hin) as [H1 [H2 [H3 H4]]].
    repeat split; auto. now apply run_view_returned.
Qed.

(** The database is lost when the update or the delete is committed. *)
Definition commit_breaks : World :=
  mkWorld ["hotel-1"]
    (mkDb [alice]
       [mkReview 1 (Some "u1") "hotel-1" 4 (JStr "Great stay") 100 100]
       None [None; Some (Operational "server closed the connection")] 2 101)
    empty_cache [].

Lemma write_aborted_on_store_error_witness :
  fst (run_view (create_review great_stay "hotel-1") lost_race)
  = Py.Ok (error_response "You have already reviewed this place" 400)
  /\ fst (run_view (update_review five_stars "hotel-1") commit_breaks)
     = Py.Ok (error_response "Failed to update review" 500)
  /\ db_reviews (w_db (snd (delete_review no_body "hotel-1" commit_breaks)))
     = db_reviews (w_db commit_breaks).
Proof.
  split; [|split].
  - apply (proj1 (write_aborted_on_store_error great_stay "hotel-1" lost_race
       (Integrity
          "duplicate key value violates unique constraint unique_user_review"))
       (w_trace (snd (create_review great_stay "hotel-1" lost_race))));
      [reflexivity | vm_compute; tauto].
  - apply (proj1 (proj2 (write_aborted_on_store_error five_stars "hotel-1"
       commit_breaks (Operational "server closed the connection")))
       (w_trace (snd (update_review five_stars "hotel-1" commit_breaks))));
      [reflexivity | vm_compute; tauto].
  - apply (proj2 (proj2 (write_aborted_on_store_error no_body "hotel-1"
       commit_breaks (Operational "server closed the connection")))
       (w_trace (snd (delete_review no_body "hotel-1" commit_breaks))));
      [reflexivity | vm_compute; tauto].
Defined.

(* ================================================================== *)
(** * Requests that reach the store *)
(* ================================================================== *)


(** The graph store knows the place. *)
Definition place_known (place_id : string) (w : World) : Prop :=
  existsb (String.eqb place_id) (w_places w) = true.

(** What the [k]-th coming round trip to the database raises. *)
Definition fault_at (k : nat) (w : World) : option store_error :=
  nth k (db_faults (w_db w)) None.

Lemma nth_0_hd {A} (l : list A) (d : A) : nth 0 l d = hd d l.
Proof. now destruct l. Qed.

Lemma nth_S_tl {A} (k : nat) (l : list A) (d : A) :
  nth (S k) l d = nth k (tl l) d.
Proof. destruct l; [now destruct k | reflexivity]. Qed.






Lemma option_string_eqb_eq (a b : option string) :
  Store.option_string_eqb a b = true -> a = b.
Proof.
  destruct a, b; simpl; try discriminate; auto.
  intros H. apply String.eqb_eq in H. now subst.
Qed.

Lemma in_map_replace (id : Z) (row' : UserReview) (rows : list UserReview) :
  (exists r, In r rows /\ r_id r = id) ->
  In row' (map (fun r => if r_id r =? id then row' else r) rows).
Proof.
  intros [r [Hin Hid]]. apply in_map_iff. exists r.
  split; [|exact Hin]. subst id. now rewrite Z.eqb_refl.
Qed.

Ltac in_replaced :=
  first [ eassumption
        | apply in_map_replace; eexists; split; [in_replaced | reflexivity] ].








(* ================================================================== *)
(** * Validation *)
(* ================================================================== *)

(** A view that rejects a request: it returns 400 with some error message
    and leaves the world as it found it. *)
Definition rejected (v : block Response Response) (w : World) : Prop :=
  exists message, v w = (Returned (error_response message 400), w).

(** The listing parameters that must be refused. *)
Definition bad_listing (req : Request) : Prop :=
  lookup_arg "size" (req_args req) = Some "0"
  \/ lookup_arg "size" (req_args req) = Some "101"
  \/ lookup_arg "page" (req_args req) = Some "0"
  \/ lookup_arg "sort_by" (req_args req) = Some "bogus".

Lemma sat_rejected (v : block Response Response) (w : World) :
  sat v w (fun o _ w' =>
    (exists message, o = Returned (error_response message 400)) /\ w' = w) ->
  rejected v w.
Proof.
  intros [new [_ [[message Ho] Hw]]]. exists message.
  destruct (v w) as [o w']. simpl in *. now subst.
Qed.

Ltac rejected_leaf := split; [eexists; reflexivity | reflexivity].

Lemma bad_rating_rejected (req : Request) (place_id : string) (w : World)
    (fields : list (string * Json)) (raw : Json) :
  req_json req = Py.Ok (JObj fields) ->
  PyJson.lookup "rating" fields = Some raw ->
  In raw [JInt 0; JInt 6; JStr "abc"] ->
  rejected (create_review req place_id) w
  /\ rejected (update_review req place_id) w.
Proof.
  intros Hj Hr Hraw.
  assert (Htr : negb (PyJson.truthy (JObj fields)) = false)
    by (destruct fields; [discriminate Hr | reflexivity]).
  assert (Hcr : PyJson.contains_key "rating" (JObj fields) = Py.Ok true)
    by (simpl; now rewrite Hr).
  assert (Hgr : PyJson.getitem "rating" (JObj fields) = Py.Ok raw)
    by (simpl; now rewrite Hr).
  assert (Hct : exists b, PyJson.contains_key "review" (JObj fields) = Py.Ok b)
    by (simpl; eexists; reflexivity).
  destruct Hct as [b Hct].
  simpl in Hraw.
  destruct Hraw as [<-|[<-|[<-|[]]]]; split; apply sat_rejected.
  all: unfold create_review, update_review; repeat sat_step'.
  all: rejected_leaf.
Qed.

Lemma args_get_int_value req name default v z :
  lookup_arg name (req_args req) = Some v -> Py.int_of_str v = Py.Ok z ->
  args_get_int req name default = z.
Proof. intros H1 H2. unfold args_get_int. now rewrite H1, H2. Qed.

Lemma args_get_str_value req name default v :
  lookup_arg name (req_args req) = Some v ->
  args_get_str req name default = v.
Proof. intros H1. unfold args_get_str. now rewrite H1. Qed.

Lemma bad_listing_rejected (req : Request) (place_id : string) (w : World) :
  bad_listing req ->
  rejected (get_place_reviews req place_id) w
  /\ rejected (get_all_reviews req) w.
Proof.
  intros [H|[H|[H|H]]]; split; apply sat_rejected;
    unfold get_place_reviews, get_all_reviews, validate_listing; cbv zeta.
  all: try rewrite (args_get_int_value req "size" _ _ _ H eq_refl).
  all: try rewrite (args_get_int_value req "page" _ _ _ H eq_refl).
  all: try rewrite (args_get_str_value req "sort_by" _ _ H).
  all: repeat sat_step'.
  all: rejected_leaf.
Qed.

(** C8: a create or update body whose rating is 0, 6 or ["abc"], and a
    listing request with [size=0], [size=101], [page=0] or
    [sort_by=bogus], is answered 400 with an error message, and the world
    is left untouched: nothing is written and the store is not even
    queried. *)
Theorem invalid_inputs_rejected
    (req : Request) (place_id : string) (w : World) :
  (forall (fields : list (string * Json)) (raw : Json),
     req_json req = Py.Ok (JObj fields) ->
     PyJson.lookup "rating" fields = Some raw ->
     In raw [JInt 0; JInt 6; JStr "abc"] ->
     rejected (create_review req place_id) w
     /\ rejected (update_review req place_id) w)
  /\ (bad_listing req ->
      rejected (get_place_reviews req place_id) w
      /\ rejected (get_all_reviews req) w).
Proof.
  split.
  - intros fields raw. apply bad_rating_rejected.
  - apply bad_listing_rejected.
Qed.

Definition zero_stars : Request :=
  mkRequest (Some "u1")
    (Py.Ok (JObj [("rating", JInt 0); ("review", JStr "Awful")]))
    [("size", "0")].

Lemma invalid_inputs_rejected_witness :
  (rejected (create_review zero_stars "hotel-1") fresh_world
   /\ rejected (update_review zero_stars "hotel-1") fresh_world)
  /\ (rejected (get_place_reviews zero_stars "hotel-1") fresh_world
      /\ rejected (get_all_reviews zero_stars) fresh_world).
Proof.
  split.
  - apply (proj1 (invalid_inputs_rejected zero_stars "hotel-1" fresh_world)
             [("rating", JInt 0); ("review", JStr "Awful")] (JInt 0));
      [reflexivity | reflexivity | simpl; auto].
  - apply (proj2 (invalid_inputs_rejected zero_stars "hotel-1" fresh_world)).
    left. reflexivity.
Defined.

(* ================================================================== *)
(** * The optional identity of [get_my_place_review] *)
(* ================================================================== *)

Lemma join_users_of_anonymous (users : list User) (place_id : string)
    (rows : list UserReview) :
  Store.join_users users
    (filter (Store.by_user_and_place None place_id) rows) = [].
Proof.
  induction rows as [|r rows IH]; [reflexivity|].
  simpl. destruct (Store.by_user_and_place None place_id r) eqn:E;
    [|exact IH].
  simpl. unfold Store.by_user_and_place in E.
  apply andb_true_iff in E. destruct E as [E _].
  destruct (r_user_id r); [discriminate E|]. simpl. exact IH.
Qed.


(** C10: a request to [/reviews/my-review/<place_id>] without identity,
    for a place that exists and with a store that answers, is not refused
    with 401: the view runs, the absent identity matches no stored review,
    and the answer is 404 with the message that the place has not been
    reviewed yet. *)
Theorem anonymous_my_review_is_404
    (req : Request) (place_id : string) (w : World) :
  req_identity req = None ->
  place_known place_id w ->
  fault_at 0 w = None ->
  fst (run_view (get_my_review req place_id) w)
  = Py.Ok (error_response "You have not reviewed this place yet" 404).
Proof.
  intros Hid Hp H0.
  unfold place_known, fault_at in *. rewrite nth_0_hd in H0.
  apply (f_equal negb) in Hp. cbn [negb] in Hp.
  pose proof (f_equal (@hd_error _)
                (join_users_of_anonymous (db_users (w_db w)) place_id
                   (Store.rows (w_db w)))) as Hjoin.
  cbn [hd_error] in Hjoin.
  apply run_view_returned.
  assert (Hs : sat (get_my_review req place_id) w (fun o _ _ =>
            o = Returned
                  (error_response "You have not reviewed this place yet" 404))).
  { unfold get_my_review, jwt_required. rewrite Hid.
    unfold get_my_place_review, Store.review_with_user_first. rewrite Hid.
    repeat sat_step'. reflexivity. }
  destruct Hs as [_ [_ Hs]]. exact Hs.
Qed.

Definition anonymous : Request :=
  mkRequest None (Py.Raise Py.BadRequest) [].

Lemma anonymous_my_review_is_404_witness :
  fst (run_view (get_my_review anonymous "hotel-1") reviewed_world)
  = Py.Ok (error_response "You have not reviewed this place yet" 404).
Proof.
  apply (anonymous_my_review_is_404 anonymous "hotel-1" reviewed_world);
    reflexivity.
Defined.

(* ================================================================== *)
(** * Unhandled exceptions *)
(* ================================================================== *)

(** C7 fails on the code: for every exception the blueprint handler builds
    its answer with [APIResponse.error(message='Internal Server Error',
    status=200)], so the status it asks for is 200 and not
    [InternalServerError.code]. *)
Theorem exception_handler_asks_for_200
    (APIResponse_error : string -> Z -> Response) (e : Py.exn) (w : World) :
  fst (run_view (exception_handler APIResponse_error e) w)
  = Py.Ok (APIResponse_error Werkzeug.InternalServerError_name 200)
  /\ 200 <> Werkzeug.InternalServerError_code.
Proof. split; [reflexivity | discriminate]. Qed.

(* ================================================================== *)
(** * The cache never decides an answer *)
(* ================================================================== *)



Section CacheBlind.

Context {R : Type}.
























End CacheBlind.





(** The cache key of a listing request, as [get_place_reviews] builds it. *)
Definition listing_cache_key (req : Request) (place_id : string) : string :=
  get_reviews_cache_key place_id
    [ ("page", PInt (args_get_int req "page" 1));
      ("size", PInt (args_get_int req "size" 10));
      ("sort_by", PStr (args_get_str req "sort_by" "created_at"));
      ("order", PStr (args_get_str req "order" "desc")) ].












(* ================================================================== *)
(** * Further properties of the review cache *)
(* ================================================================== *)

Lemma find_head (key : string) (entry : Z * cached) rest :
  RedisClient.find key ((key, entry) :: rest) = Some (snd entry).
Proof. destruct entry. simpl. now rewrite String.eqb_refl. Qed.





(** The listing parameters pass the validation of the view whose default
    page size is [default_size] and whose sort fields are
    [valid_sort_fields]. *)
Definition listing_accepted (req : Request) (default_size : Z)
    (valid_sort_fields : list string) : Prop :=
  1 <= args_get_int req "page" 1
  /\ 1 <= args_get_int req "size" default_size <= 100
  /\ In (args_get_str req "sort_by" "created_at") valid_sort_fields
  /\ In (args_get_str req "order" "desc") ["asc"; "desc"].

Lemma member_in (x : string) (l : list string) : In x l -> member x l = true.
Proof. intros H. unfold member. now apply existsb_eqb_in. Qed.

Lemma listing_accepted_facts req default_size fields :
  listing_accepted req default_size fields ->
  (args_get_int req "page" 1 <? 1) = false
  /\ (args_get_int req "size" default_size <? 1)
     || (args_get_int req "size" default_size >? 100) = false
  /\ negb (member (args_get_str req "sort_by" "created_at") fields) = false
  /\ negb (member (args_get_str req "order" "desc") ["asc"; "desc"]) = false.
Proof.
  intros [Hp [Hs [Hf Ho]]]. repeat split.
  - apply Z.ltb_ge. lia.
  - apply orb_false_iff.
    split; [apply Z.ltb_ge | rewrite Z.gtb_ltb; apply Z.ltb_ge]; lia.
  - now rewrite member_in.
  - now rewrite member_in.
Qed.

Ltac sat_step'' :=
  lazymatch goal with
  | |- sat (validate_listing _ _ _ _ _) _ _ => unfold validate_listing; cbv zeta
  | |- sat (call (get_cached_reviews _)) _ _ =>
      apply sat_call; unfold get_cached_reviews, RedisClient.get
  | |- sat (call (cache_reviews _ _ _)) _ _ =>
      apply sat_call; unfold cache_reviews, RedisClient.setex
  | |- sat (Store.count _) _ _ => unfold Store.count
  | |- sat (Store.page _ _ _ _ _) _ _ => unfold Store.page
  | |- sat (Store.review_with_user_first _ _) _ _ =>
      unfold Store.review_with_user_first
  | |- _ => sat_step'
  end.

Lemma get_place_reviews_hit
    (req : Request) (place_id : string) (doc : Json) (w : World) :
  listing_accepted req 10 ["rating"; "updated_at"; "created_at"] ->
  place_known place_id w ->
  hd false (rd_faults (w_redis w)) = false ->
  loads_cached (RedisClient.find (listing_cache_key req place_id)
                  (rd_keys (w_redis w))) = Py.Ok (Some doc) ->
  sat (get_place_reviews req place_id) w (fun o _ w' =>
    o = Returned (mkResponse 200 doc) /\ w_db w' = w_db w).
Proof.
  intros Hacc Hp H0 Hhit.
  apply listing_accepted_facts in Hacc. destruct Hacc as [Hpg [Hsz [Hsf Hor]]].
  unfold place_known in Hp. apply (f_equal negb) in Hp. cbn [negb] in Hp.
  unfold get_place_reviews. cbv zeta.
  fold (listing_cache_key req place_id).
  repeat sat_step''. all: split; reflexivity.
Qed.




Lemma get_place_reviews_miss_fills
    (req : Request) (place_id : string) (w : World) :
  listing_accepted req 10 ["rating"; "updated_at"; "created_at"] ->
  place_known place_id w ->
  rd_faults (w_redis w) = [] ->
  RedisClient.find (listing_cache_key req place_id) (rd_keys (w_redis w))
  = None ->
  fault_at 0 w = None -> fault_at 1 w = None ->
  sat (get_place_reviews req place_id) w (fun o _ w' =>
    exists doc,
      o = Returned (mkResponse 200 doc)
      /\ w_places w' = w_places w
      /\ rd_faults (w_redis w') = []
      /\ RedisClient.find (listing_cache_key req place_id)
            (rd_keys (w_redis w')) = Some (Dumped doc)).
Proof.
  intros Hacc Hp Hplan Hmiss Hf0 Hf1.
  apply listing_accepted_facts in Hacc. destruct Hacc as [Hpg [Hsz [Hsf Hor]]].
  unfold place_known in Hp. apply (f_equal negb) in Hp. cbn [negb] in Hp.
  unfold fault_at in *. rewrite ?nth_S_tl, nth_0_hd in *.
  assert (Hh0 : hd false (rd_faults (w_redis w)) = false) by now rewrite Hplan.
  assert (Hh1 : hd false (tl (rd_faults (w_redis w))) = false)
    by now rewrite Hplan.
  assert (Hl : loads_cached (RedisClient.find (listing_cache_key req place_id)
                               (rd_keys (w_redis w))) = Py.Ok None)
    by now rewrite Hmiss.
  unfold get_place_reviews. cbv zeta.
  fold (listing_cache_key req place_id).
  repeat sat_step''.
  eexists. split; [reflexivity|]. split; [reflexivity|].
  split; [now rewrite Hplan|]. apply find_head.
Qed.

(** X3.  A miss fills the cache: when the parameters are valid, the place
    exists, the cache works and has no entry for the request, and the two
    queries succeed, the same request made again gets the same answer, and
    this second answer costs no round trip to the database. *)
Theorem second_read_is_served_from_cache
    (req : Request) (place_id : string) (w : World) :
  listing_accepted req 10 ["rating"; "updated_at"; "created_at"] ->
  place_known place_id w ->
  rd_faults (w_redis w) = [] ->
  RedisClient.find (listing_cache_key req place_id) (rd_keys (w_redis w))
  = None ->
  fault_at 0 w = None -> fault_at 1 w = None ->
  let w1 := snd (get_place_reviews req place_id w) in
  fst (run_view (get_place_reviews req place_id) w1)
  = fst (run_view (get_place_reviews req place_id) w)
  /\ w_db (snd (get_place_reviews req place_id w1)) = w_db w1.
Proof.
  intros Hacc Hp Hplan Hmiss Hf0 Hf1 w1.
  destruct (get_place_reviews_miss_fills req place_id w
              Hacc Hp Hplan Hmiss Hf0 Hf1)
    as [_ [_ [doc [Ho [Hpl [Hrd Hfind]]]]]].
  fold w1 in Hpl, Hrd, Hfind.
  assert (Hp1 : place_known place_id w1)
    by (unfold place_known; now rewrite Hpl).
  assert (Hh : hd false (rd_faults (w_redis w1)) = false) by now rewrite Hrd.
  assert (Hl : loads_cached (RedisClient.find (listing_cache_key req place_id)
                               (rd_keys (w_redis w1))) = Py.Ok (Some doc))
    by now rewrite Hfind.
  destruct (get_place_reviews_hit req place_id doc w1 Hacc Hp1 Hh Hl)
    as [_ [_ [Ho1 Hdb1]]].
  split; [|exact Hdb1].
  rewrite (run_view_returned _ _ _ Ho1), (run_view_returned _ _ _ Ho).
  reflexivity.
Qed.

Lemma second_read_is_served_from_cache_witness :
  let w1 := snd (get_place_reviews anonymous "hotel-1" reviewed_world) in
  fst (run_view (get_place_reviews anonymous "hotel-1") w1)
  = fst (run_view (get_place_reviews anonymous "hotel-1") reviewed_world)
  /\ w_db (snd (get_place_reviews anonymous "hotel-1" w1)) = w_db w1.
Proof.
  apply (second_read_is_served_from_cache anonymous "hotel-1" reviewed_world);
    try reflexivity.
  repeat split; try (vm_compute; discriminate); simpl; auto.
Defined.

(* ================================================================== *)
(** * What an invalidation reaches *)
(* ================================================================== *)

Lemma prefix_trans (a b c : string) :
  String.prefix a b = true -> String.prefix b c = true ->
  String.prefix a c = true.
Proof.
  revert b c. induction a as [|x a IH]; intros b c Hab Hbc.
  - now destruct c.
  - destruct b as [|y b]; [discriminate Hab|].
    destruct c as [|z c]; [discriminate Hbc|].
    simpl in *.
    destruct (ascii_dec x y) as [->|]; [|discriminate Hab].
    destruct (ascii_dec y z) as [->|]; [|discriminate Hbc].
    now apply IH with (b := b).
Qed.

Lemma prefix_app_both (a p q : string) :
  String.prefix p q = true -> String.prefix (a ++ p) (a ++ q) = true.
Proof.
  intros H. induction a as [|x a IH]; simpl; [exact H|].
  destruct (ascii_dec x x); [exact IH | congruence].
Qed.

(** The keys that are left after a successful invalidation. *)
Lemma invalidate_caches_clears places db ks trace place_id :
  Glob.literal place_id = true ->
  exists ks' new,
    invalidate_caches place_id (mkWorld places db (mkRedis ks []) trace)
    = (Normal tt,
       mkWorld places db (mkRedis ks' [])
               (trace ++ EvInvalidate place_id :: new)%list)
    /\ steps new = []
    /\ (forall (other : string) (P : params),
          String.prefix place_id other = true ->
          RedisClient.find (get_reviews_cache_key other P) ks' = None)
    /\ (forall P : params,
          RedisClient.find (get_all_reviews_cache_key P) ks' = None).
Proof.
  intros Hlit.
  pose proof (invalidate_caches_healthy places db ks trace place_id) as Hrun.
  cbv zeta in Hrun.
  rewrite !(filter_ext _ _
              (fun key => glob_place_reviews place_id key Hlit)) in Hrun.
  rewrite !(filter_ext _ _ glob_all_reviews) in Hrun.
  set (place_keys :=
         filter (String.prefix ("url:/reviews/" ++ place_id)) (map fst ks))
    in *.
  set (batch := (place_keys ++ place_data_keys place_id)%list) in *.
  set (ks1 := RedisClient.remove_all batch ks) in *.
  set (all_keys := filter (String.prefix "url:/reviews/all") (map fst ks1))
    in *.
  assert (Hks2 : (if is_nonempty all_keys
                  then RedisClient.remove_all all_keys ks1 else ks1)
                 = RedisClient.remove_all all_keys ks1).
  { destruct all_keys; [now rewrite remove_all_nil | reflexivity]. }
  rewrite Hks2 in Hrun.
  eexists. eexists. split; [exact Hrun|]. split.
  { destruct (is_nonempty all_keys); reflexivity. }
  split.
  - intros other P Hpre. apply find_remove_all. intros Hin. exfalso.
    apply (not_in_remove_all batch ks
             (get_reviews_cache_key other P)); [|exact Hin].
    unfold batch. apply in_or_app. left. unfold place_keys.
    apply filter_In. split.
    + eapply remove_all_keys_incl. exact Hin.
    + apply prefix_trans with (b := "url:/reviews/" ++ other).
      * now apply prefix_app_both.
      * apply key_with_params_prefix.
  - intros P. apply find_remove_all. intros Hin.
    unfold all_keys. apply filter_In. split; [exact Hin|].
    apply key_with_params_prefix.
Qed.


(** X4.  An invalidation also reaches the other places whose identifier starts
    with the identifier given: for a [place_id] without glob metacharacters
    and a cache that works, [invalidate_caches] leaves no listing key of any
    place whose identifier has [place_id] as a prefix. *)
Theorem invalidation_reaches_prefixed_places
    (place_id other : string) (w : World) :
  Glob.literal place_id = true ->
  rd_faults (w_redis w) = [] ->
  String.prefix place_id other = true ->
  forall P : params,
    RedisClient.find (get_reviews_cache_key other P)
      (rd_keys (w_redis (snd (invalidate_caches place_id w)))) = None.
Proof.
  intros Hlit Hplan Hpre P.
  destruct w as [places db [ks plan] trace]. simpl in Hplan. subst plan.
  destruct (invalidate_caches_clears places db ks trace place_id Hlit)
    as [ks' [new [Hrun [_ [Hplace _]]]]].
  rewrite Hrun. simpl. now apply Hplace.
Qed.

(** The first page of the listing of [hotel-10] is cached. *)
Definition neighbour_cached : World :=
  mkWorld ["hotel-1"; "hotel-10"] (mkDb [alice] [] None [] 1 100)
    (mkRedis
       [ ("url:/reviews/hotel-10?order=desc&page=1&size=10&sort_by=created_at",
          (3600, Dumped (JObj [("items", JList [])]))) ]
       [])
    [].

Lemma invalidation_reaches_prefixed_places_witness :
  RedisClient.find
    "url:/reviews/hotel-10?order=desc&page=1&size=10&sort_by=created_at"
    (rd_keys (w_redis (snd (invalidate_caches "hotel-1" neighbour_cached))))
  = None.
Proof.
  exact (invalidation_reaches_prefixed_places "hotel-1" "hotel-10"
           neighbour_cached eq_refl eq_refl eq_refl
           [ ("page", PInt 1); ("size", PInt 10);
             ("sort_by", PStr "created_at"); ("order", PStr "desc") ]).
Defined.










(* ================================================================== *)
(** * What a write never does *)
(* ================================================================== *)

(** The steps of a write that did not commit: none, or a rollback after a
    failed query, or a failed commit and its rollback. *)
Definition uncommitted_steps (new : list Event) : Prop :=
  steps new = []
  \/ steps new = [EvRollback]
  \/ exists e, steps new = [EvCommitFailed e; EvRollback].

(** The answer has status [code] only after a commit, and without a commit
    there is no downstream effect. *)
Definition success_needs_commit (code : Z)
    (o : outcome Response Response) (new : list Event) : Prop :=
  (forall r, o = Returned r -> status r = code -> In EvCommit new)
  /\ (In EvCommit new \/ uncommitted_steps new).

(** A store error is a [SQLAlchemyError]. *)
Ltac absurd_branch :=
  match goal with
  | H : Py.is_sqlalchemy_error (Py.IntegrityError _) = false |- _ =>
      discriminate H
  | H : Py.is_sqlalchemy_error (Py.SQLAlchemyError _) = false |- _ =>
      discriminate H
  end.

Ltac steps_goal :=
  unfold steps;
  repeat first [ rewrite filter_app | progress cbn [filter is_step app] ];
  repeat match goal with
         | Hn : steps ?n = [] |- _ =>
             change (filter is_step n) with (steps n); rewrite Hn
         end;
  cbn [app].

Ltac success_leaf :=
  split;
  [ intros r Hr Hst;
    first [ discriminate Hr
          | injection Hr as <-; cbn [status error_response] in Hst;
            first [ discriminate Hst
                  | cbn [app]; auto 20 with datatypes ] ]
  | first [ left; cbn [app]; solve [auto 20 with datatypes]
          | right; unfold uncommitted_steps; steps_goal;
            first [ left; reflexivity
                  | right; left; reflexivity
                  | right; right; eexists; reflexivity ] ] ].

Lemma create_review_success req place_id w :
  sat (create_review req place_id) w (fun o new _ =>
    success_needs_commit 201 o new).
Proof. unfold create_review. repeat sat_step''. all: success_leaf. Qed.

Lemma update_review_success req place_id w :
  sat (update_review req place_id) w (fun o new _ =>
    success_needs_commit 200 o new).
Proof.
  unfold update_review. repeat sat_step''.
  all: try absurd_branch. all: success_leaf.
Qed.

Lemma delete_review_success req place_id w :
  sat (delete_review req place_id) w (fun o new _ =>
    success_needs_commit 200 o new).
Proof.
  unfold delete_review. repeat sat_step''.
  all: try absurd_branch. all: success_leaf.
Qed.

(** X6.  A write has no downstream effect without a commit and reports success
    only after one: in every run of [create_review], [update_review] and
    [delete_review], either the commit succeeded or the steps of the run
    are none, a lone rollback, or a failed commit and its rollback; and the
    success status (201 for create, 200 for update and delete) is returned
    only when the commit succeeded. *)
Theorem success_only_after_commit
    (req : Request) (place_id : string) (w : World) :
  (forall new,
     w_trace (snd (create_review req place_id w)) = (w_trace w ++ new)%list ->
     success_needs_commit 201 (fst (create_review req place_id w)) new)
  /\ (forall new,
        w_trace (snd (update_review req place_id w)) = (w_trace w ++ new)%list ->
        success_needs_commit 200 (fst (update_review req place_id w)) new)
  /\ (forall new,
        w_trace (snd (delete_review req place_id w)) = (w_trace w ++ new)%list ->
        success_needs_commit 200 (fst (delete_review req place_id w)) new).
Proof.
  split; [|split]; intros new Hnew.
  - exact (sat_elim _ _ _ (create_review_success req place_id w) new Hnew).
  - exact (sat_elim _ _ _ (update_review_success req place_id w) new Hnew).
  - exact (sat_elim _ _ _ (delete_review_success req place_id w) new Hnew).
Qed.

Lemma success_only_after_commit_witness :
  success_needs_commit 201
    (fst (create_review great_stay "hotel-1" reviewed_world))
    (w_trace (snd (create_review great_stay "hotel-1" reviewed_world)))
  /\ success_needs_commit 200
       (fst (delete_review no_body "hotel-1" fresh_world))
       (w_trace (snd (delete_review no_body "hotel-1" fresh_world))).
Proof.
  split.
  - apply (proj1 (success_only_after_commit great_stay "hotel-1"
                    reviewed_world)). reflexivity.
  - apply (proj2 (proj2 (success_only_after_commit no_body "hotel-1"
                           fresh_world))). reflexivity.
Defined.

(* ================================================================== *)
(** * Bodies that the validation does not expect *)
(* ================================================================== *)

Lemma sat_pair {R A} (c : block R A) (w : World) (o : outcome R A) :
  sat c w (fun o' _ w' => o' = o /\ w' = w) -> c w = (o, w).
Proof.
  intros [_ [_ [Ho Hw]]]. destruct (c w) as [o' w']. simpl in *. now subst.
Qed.

(** A JSON number or boolean. *)
Definition is_scalar (data : Json) : bool :=
  match data with
  | JBool _ | JInt _ | JFloat _ => true
  | _ => false
  end.

(** X7.  A body that is a true scalar (a non-zero number, [true]) is not
    refused: the membership test ['rating' in data] raises [TypeError],
    which no handler of [create_review] or [update_review] catches; the
    exception leaves the view and the world is untouched. *)
Theorem scalar_body_raises_type_error
    (req : Request) (place_id : string) (data : Json) (w : World) :
  req_json req = Py.Ok data ->
  is_scalar data = true ->
  PyJson.truthy data = true ->
  create_review req place_id w = (Raised Py.TypeError, w)
  /\ update_review req place_id w = (Raised Py.TypeError, w).
Proof.
  intros Hj Hs Ht. apply (f_equal negb) in Ht. cbn [negb] in Ht.
  assert (Hc : forall k, PyJson.contains_key k data = Py.Raise Py.TypeError)
    by (intros k; destruct data; try discriminate Hs; reflexivity).
  pose proof (Hc "rating") as Hcr.
  split; apply sat_pair.
  - unfold create_review. repeat sat_step''. now split.
  - unfold update_review. repeat sat_step''. now split.
Qed.

Definition forty_two : Request := mkRequest (Some "u1") (Py.Ok (JInt 42)) [].

Lemma scalar_body_raises_type_error_witness :
  create_review forty_two "hotel-1" fresh_world
  = (Raised Py.TypeError, fresh_world)
  /\ update_review forty_two "hotel-1" fresh_world
     = (Raised Py.TypeError, fresh_world).
Proof.
  apply (scalar_body_raises_type_error forty_two "hotel-1" (JInt 42)
           fresh_world); reflexivity.
Defined.

(** X8.  An infinite rating is not refused: [int] raises [OverflowError], which
    the handler for [ValueError] and [TypeError] does not catch, so the
    exception leaves [create_review] and [update_review] with the world
    untouched; a NaN rating raises [ValueError] and is answered 400. *)
Theorem infinite_rating_raises_overflow_error
    (req : Request) (place_id : string) (fields : list (string * Json))
    (sign : bool) (w : World) :
  req_json req = Py.Ok (JObj fields) ->
  (PyJson.lookup "rating" fields = Some (JFloat (S754_infinity sign)) ->
   (PyJson.lookup "review" fields <> None ->
    create_review req place_id w = (Raised Py.OverflowError, w))
   /\ update_review req place_id w = (Raised Py.OverflowError, w))
  /\ (PyJson.lookup "rating" fields = Some (JFloat S754_nan) ->
      rejected (create_review req place_id) w
      /\ rejected (update_review req place_id) w).
Proof.
  intros Hj. split; intros Hr.
  - assert (Htr : negb (PyJson.truthy (JObj fields)) = false)
      by (destruct fields; [discriminate Hr | reflexivity]).
    assert (Hcr : PyJson.contains_key "rating" (JObj fields) = Py.Ok true)
      by (simpl; now rewrite Hr).
    assert (Hgr : PyJson.getitem "rating" (JObj fields)
                  = Py.Ok (JFloat (S754_infinity sign)))
      by (simpl; now rewrite Hr).
    assert (Hi : PyJson.to_int (JFloat (S754_infinity sign))
                 = Py.Raise Py.OverflowError) by reflexivity.
    split.
    + intros Hrev.
      destruct (PyJson.lookup "review" fields) as [t|] eqn:Et; [|congruence].
      assert (Hct : PyJson.contains_key "review" (JObj fields) = Py.Ok true)
        by (simpl; now rewrite Et).
      apply sat_pair. unfold create_review. repeat sat_step''. now split.
    + apply sat_pair. unfold update_review. repeat sat_step''. now split.
  - assert (Htr : negb (PyJson.truthy (JObj fields)) = false)
      by (destruct fields; [discriminate Hr | reflexivity]).
    assert (Hcr : PyJson.contains_key "rating" (JObj fields) = Py.Ok true)
      by (simpl; now rewrite Hr).
    assert (Hgr : PyJson.getitem "rating" (JObj fields)
                  = Py.Ok (JFloat S754_nan))
      by (simpl; now rewrite Hr).
    assert (Hct : exists b,
              PyJson.contains_key "review" (JObj fields) = Py.Ok b)
      by (simpl; eexists; reflexivity).
    destruct Hct as [b Hct].
    split; apply sat_rejected.
    + unfold create_review. repeat sat_step''. all: rejected_leaf.
    + unfold update_review. repeat sat_step''. all: rejected_leaf.
Qed.

Definition infinitely_good : Request :=
  mkRequest (Some "u1")
    (Py.Ok (JObj [ ("rating", JFloat (S754_infinity false));
                   ("review", JStr "Beyond words") ])) [].

Lemma infinite_rating_raises_overflow_error_witness :
  create_review infinitely_good "hotel-1" fresh_world
  = (Raised Py.OverflowError, fresh_world)
  /\ update_review infinitely_good "hotel-1" fresh_world
     = (Raised Py.OverflowError, fresh_world).
Proof.
  destruct (proj1 (infinite_rating_raises_overflow_error infinitely_good
                     "hotel-1"
                     [ ("rating", JFloat (S754_infinity false));
                       ("review", JStr "Beyond words") ]
                     false fresh_world eq_refl) eq_refl) as [Hc Hu].
  split; [apply Hc; discriminate | exact Hu].
Defined.

(* ================================================================== *)
(** * The user lookup of [create_review] *)
(* ================================================================== *)







(* ================================================================== *)
(** * Bodies without the expected fields *)
(* ================================================================== *)

(** The view answers 400 with [message] and leaves the world untouched. *)
Definition refused_with (message : string)
    (v : block Response Response) (w : World) : Prop :=
  v w = (Returned (error_response message 400), w).

(** X10.  The body parsing and the required fields: a body that is valid JSON but
    empty or null is refused by both writers as not being valid JSON; a
    JSON object that lacks ['rating'] or ['review'] is refused by
    [create_review]; a non-empty JSON object that has neither is refused by
    [update_review].  Nothing is looked up or written. *)
Theorem incomplete_body_refused
    (req : Request) (place_id : string) (w : World) :
  (forall data,
     req_json req = Py.Ok data -> PyJson.truthy data = false ->
     refused_with "Request body must be valid JSON"
       (create_review req place_id) w
     /\ refused_with "Request body must be valid JSON"
          (update_review req place_id) w)
  /\ (forall fields,
        req_json req = Py.Ok (JObj fields) -> fields <> [] ->
        (PyJson.lookup "rating" fields = None
         \/ PyJson.lookup "review" fields = None ->
         refused_with "Rating and review are required"
           (create_review req place_id) w)
        /\ (PyJson.lookup "rating" fields = None ->
            PyJson.lookup "review" fields = None ->
            refused_with
              "At least one field (rating or review) must be provided"
              (update_review req place_id) w)).
Proof.
  split.
  - intros data Hj Ht. apply (f_equal negb) in Ht. cbn [negb] in Ht.
    split; apply sat_pair.
    + unfold create_review. repeat sat_step''. now split.
    + unfold update_review. repeat sat_step''. now split.
  - intros fields Hj Hne.
    assert (Htr : negb (PyJson.truthy (JObj fields)) = false)
      by (destruct fields; [congruence | reflexivity]).
    split.
    + intros Hmiss. apply sat_pair.
      destruct (PyJson.lookup "rating" fields) as [r|] eqn:Er.
      * destruct Hmiss as [Hm|Hm]; [discriminate Hm|].
        assert (Hcr : PyJson.contains_key "rating" (JObj fields) = Py.Ok true)
          by (simpl; now rewrite Er).
        assert (Hct : PyJson.contains_key "review" (JObj fields) = Py.Ok false)
          by (simpl; now rewrite Hm).
        unfold create_review. repeat sat_step''. now split.
      * assert (Hcr : PyJson.contains_key "rating" (JObj fields) = Py.Ok false)
          by (simpl; now rewrite Er).
        unfold create_review. repeat sat_step''. now split.
    + intros Hr Ht. apply sat_pair.
      assert (Hcr : PyJson.contains_key "rating" (JObj fields) = Py.Ok false)
        by (simpl; now rewrite Hr).
      assert (Hct : PyJson.contains_key "review" (JObj fields) = Py.Ok false)
        by (simpl; now rewrite Ht).
      unfold update_review. repeat sat_step''. now split.
Qed.

Definition only_a_comment : Request :=
  mkRequest (Some "u1") (Py.Ok (JObj [("comment", JStr "Nice")])) [].

Definition empty_object : Request :=
  mkRequest (Some "u1") (Py.Ok (JObj [])) [].

Lemma incomplete_body_refused_witness :
  refused_with "Request body must be valid JSON"
    (create_review empty_object "hotel-1") fresh_world
  /\ refused_with "Rating and review are required"
       (create_review only_a_comment "hotel-1") fresh_world
  /\ refused_with "At least one field (rating or review) must be provided"
       (update_review only_a_comment "hotel-1") fresh_world.
Proof.
  split; [|split].
  - apply (proj1 (incomplete_body_refused empty_object "hotel-1" fresh_world)
             (JObj [])); reflexivity.
  - apply (proj2 (incomplete_body_refused only_a_comment "hotel-1"
                    fresh_world) [("comment", JStr "Nice")]);
      [reflexivity | discriminate | left; reflexivity].
  - apply (proj2 (incomplete_body_refused only_a_comment "hotel-1"
                    fresh_world) [("comment", JStr "Nice")]);
      [reflexivity | discriminate | reflexivity | reflexivity].
Defined.

(* ================================================================== *)
(** * The views that read *)
(* ================================================================== *)











(** X12.  [get_my_place_review] for an identified user does what
    [get_user_place_review] does for that user: the two views leave the same
    world and give the same answer, except that a missing review is reported
    with a different message (both with status 404). *)
Theorem my_review_is_the_users_review
    (req : Request) (user_id place_id : string) (w : World) :
  req_identity req = Some user_id ->
  snd (get_my_place_review req place_id w)
  = snd (get_user_place_review user_id place_id w)
  /\ (fst (get_my_place_review req place_id w)
      = fst (get_user_place_review user_id place_id w)
      \/ (fst (get_my_place_review req place_id w)
          = Returned
              (error_response "You have not reviewed this place yet" 404)
          /\ fst (get_user_place_review user_id place_id w)
             = Returned (error_response "Review not found" 404))).
Proof.
  intros Hid. unfold get_my_place_review, get_user_place_review.
  rewrite Hid.
  unfold try_except, bind, check_place_exists, when,
    Store.review_with_user_first, Store.round_trip, get_world, pure, return_,
    log, emit, modify.
  destruct w as [places db rd trace]. simpl.
  destruct (existsb (String.eqb place_id) places); simpl; [|auto].
  destruct (hd None (db_faults db)) as [[m|m]|]; simpl; auto.
  match goal with
  | |- context [hd_error ?l] => destruct (hd_error l) as [[review user]|]
  end; simpl; auto.
Qed.

Definition alice_asks : Request :=
  mkRequest (Some "u1") (Py.Raise Py.BadRequest) [].

Lemma my_review_is_the_users_review_witness :
  snd (get_my_place_review alice_asks "hotel-1" reviewed_world)
  = snd (get_user_place_review "u1" "hotel-1" reviewed_world)
  /\ fst (get_my_place_review alice_asks "hotel-1" reviewed_world)
     = fst (get_user_place_review "u1" "hotel-1" reviewed_world).
Proof.
  destruct (my_review_is_the_users_review alice_asks "u1" "hotel-1"
              reviewed_world eq_refl) as [Hw [Ho|[Ho _]]].
  - split; [exact Hw | exact Ho].
  - discriminate Ho.
Defined.

(* ================================================================== *)
(** * Places that do not exist, stores that do not answer *)
(* ================================================================== *)






(* ================================================================== *)
(** * What an update and a delete change *)
(* ================================================================== *)



Section PartialUpdate.

Variables (req : Request) (place_id : string) (fields : list (string * Json))
          (old : UserReview) (user : User) (w : World).

Hypothesis Hjson : req_json req = Py.Ok (JObj fields).
Hypothesis Hplace : place_known place_id w.
Hypothesis Hquery : fault_at 0 w = None.
Hypothesis Hcommit : fault_at 1 w = None.
Hypothesis Huser :
  Store.find_user (db_users (w_db w)) (req_identity req) = Some user.
Hypothesis Hold :
  List.find (Store.by_user_and_place (req_identity req) place_id)
    (Store.rows (w_db w)) = Some old.

Let user_fields : list (string * Json) :=
  [ ("full_name", JStr (u_full_name user));
    ("avatar", json_of_option_string (u_avatar user)) ].




End PartialUpdate.



(* ================================================================== *)
(** * One review per user and place *)
(* ================================================================== *)

(** No two rows of the table have the same user and the same place. *)
Definition one_review_per_pair (rows : list UserReview) : Prop :=
  forall r1 r2, In r1 rows -> In r2 rows ->
    r_user_id r1 = r_user_id r2 -> r_place_id r1 = r_place_id r2 -> r1 = r2.

Lemma option_string_eqb_refl (a : option string) :
  Store.option_string_eqb a a = true.
Proof. destruct a; simpl; [apply String.eqb_refl | reflexivity]. Qed.

Lemma added_keeps_pairs rows id user_id place_id rating text t1 t2 :
  one_review_per_pair rows ->
  List.find (Store.by_user_and_place user_id place_id) rows = None ->
  one_review_per_pair
    (rows ++ [mkReview id user_id place_id rating text t1 t2])%list.
Proof.
  intros Hinv Hnone r1 r2 H1 H2 Hu Hp.
  assert (Hfresh : forall r, In r rows ->
            r_user_id r = user_id -> r_place_id r = place_id -> False).
  { intros r Hin Hru Hrp.
    pose proof (find_none _ _ Hnone r Hin) as Hf.
    unfold Store.by_user_and_place in Hf.
    rewrite Hru, Hrp, option_string_eqb_refl, String.eqb_refl in Hf.
    discriminate Hf. }
  apply in_app_or in H1. apply in_app_or in H2.
  destruct H1 as [H1|[<-|[]]], H2 as [H2|[<-|[]]]; simpl in *.
  - now apply Hinv.
  - exfalso. now apply (Hfresh r1).
  - exfalso. now apply (Hfresh r2).
  - reflexivity.
Qed.

Lemma replaced_keeps_pairs rows id (anchor row' : UserReview) :
  one_review_per_pair rows ->
  In anchor rows -> r_id anchor = id ->
  r_user_id row' = r_user_id anchor -> r_place_id row' = r_place_id anchor ->
  one_review_per_pair (map (fun r => if r_id r =? id then row' else r) rows).
Proof.
  intros Hinv Hin Hid Hu Hp r1 r2 H1 H2 Hu12 Hp12.
  apply in_map_iff in H1. destruct H1 as [x1 [E1 I1]].
  apply in_map_iff in H2. destruct H2 as [x2 [E2 I2]].
  destruct (r_id x1 =? id) eqn:T1, (r_id x2 =? id) eqn:T2; subst r1 r2.
  - reflexivity.
  - exfalso. assert (anchor = x2)
      by (apply Hinv; auto; congruence).
    subst x2. rewrite Hid, Z.eqb_refl in T2. discriminate T2.
  - exfalso. assert (anchor = x1)
      by (apply Hinv; auto; congruence).
    subst x1. rewrite Hid, Z.eqb_refl in T1. discriminate T1.
  - now apply Hinv.
Qed.

Lemma filtered_keeps_pairs rows (keep : UserReview -> bool) :
  one_review_per_pair rows -> one_review_per_pair (filter keep rows).
Proof.
  intros Hinv r1 r2 H1 H2. apply filter_In in H1, H2.
  apply Hinv; tauto.
Qed.

Ltac pairs_leaf :=
  project; cbn [Store.rows Store.set_session db_session];
  first
    [ assumption
    | apply added_keeps_pairs;
      [ assumption
      | match goal with
        | H : is_some (find ?p ?l) = false |- find ?p ?l = None =>
            destruct (find p l); [discriminate H | reflexivity]
        end ]
    | apply filtered_keeps_pairs; assumption
    | match goal with
      | H : find _ _ = Some ?old
        |- one_review_per_pair
             (map (fun r => if r_id r =? ?id then ?row2 else r)
                (map (fun r' => if _ then ?row1 else r') ?rows)) =>
          pose proof (find_some _ _ H) as [? _];
          apply (replaced_keeps_pairs _ id row1 row2);
          [ apply (replaced_keeps_pairs rows id old row1);
            [ assumption | assumption | reflexivity | reflexivity
            | reflexivity ]
          | in_replaced | reflexivity | reflexivity | reflexivity ]
      | H : find _ _ = Some ?old
        |- one_review_per_pair
             (map (fun r => if r_id r =? ?id then ?row1 else r) ?rows) =>
          pose proof (find_some _ _ H) as [? _];
          apply (replaced_keeps_pairs rows id old row1);
          [ assumption | assumption | reflexivity | reflexivity
          | reflexivity ]
      end ].

Section PairsInvariant.

Variables (req : Request) (place_id : string) (w : World).
Hypothesis Hclean : db_session (w_db w) = None.
Hypothesis Hinv : one_review_per_pair (db_reviews (w_db w)).

Lemma rows_of_clean : Store.rows (w_db w) = db_reviews (w_db w).
Proof. unfold Store.rows. now rewrite Hclean. Qed.

Lemma create_review_keeps_pairs :
  sat (create_review req place_id) w (fun _ _ w' =>
    one_review_per_pair (db_reviews (w_db w'))).
Proof.
  pose proof Hinv as Hi. rewrite <- rows_of_clean in Hi.
  unfold create_review. repeat sat_step''.
  all: pairs_leaf.
Qed.

Lemma delete_review_keeps_pairs :
  sat (delete_review req place_id) w (fun _ _ w' =>
    one_review_per_pair (db_reviews (w_db w'))).
Proof.
  pose proof Hinv as Hi. rewrite <- rows_of_clean in Hi.
  unfold delete_review. repeat sat_step''.
  all: pairs_leaf.
Qed.

Lemma update_review_keeps_pairs :
  sat (update_review req place_id) w (fun _ _ w' =>
    one_review_per_pair (db_reviews (w_db w'))).
Proof.
  pose proof Hinv as Hi. rewrite <- rows_of_clean in Hi.
  unfold update_review. repeat sat_step''.
  all: pairs_leaf.
Qed.

End PairsInvariant.

(** X16.  The writers keep the table free of duplicates: starting from a clean
    session and a table with at most one review per user and place,
    whatever the request and whatever happens during the run, the table
    that [create_review], [update_review] or [delete_review] leaves still
    has at most one review per user and place. *)
Theorem writers_keep_one_review_per_pair
    (req : Request) (place_id : string) (w : World) :
  db_session (w_db w) = None ->
  one_review_per_pair (db_reviews (w_db w)) ->
  one_review_per_pair (db_reviews (w_db (snd (create_review req place_id w))))
  /\ one_review_per_pair
       (db_reviews (w_db (snd (update_review req place_id w))))
  /\ one_review_per_pair
       (db_reviews (w_db (snd (delete_review req place_id w)))).
Proof.
  intros Hclean Hinv. split; [|split].
  - destruct (create_review_keeps_pairs req place_id w Hclean Hinv)
      as [_ [_ H]]. exact H.
  - destruct (update_review_keeps_pairs req place_id w Hclean Hinv)
      as [_ [_ H]]. exact H.
  - destruct (delete_review_keeps_pairs req place_id w Hclean Hinv)
      as [_ [_ H]]. exact H.
Qed.

Lemma single_row_pairs (r : UserReview) : one_review_per_pair [r].
Proof.
  intros r1 r2 [<-|[]] [<-|[]] _ _. reflexivity.
Defined.

Lemma writers_keep_one_review_per_pair_witness :
  one_review_per_pair
    (db_reviews (w_db (snd (create_review great_stay "hotel-1"
                              reviewed_world)))).
Proof.
  apply (proj1 (writers_keep_one_review_per_pair great_stay "hotel-1"
                  reviewed_world eq_refl (single_row_pairs _))).
Defined.

(* ================================================================== *)
(** * Deleting a review *)
(* ================================================================== *)

Lemma delete_review_removes
    (req : Request) (place_id : string) (old : UserReview) (w : World) :
  place_known place_id w ->
  fault_at 0 w = None -> fault_at 1 w = None ->
  List.find (Store.by_user_and_place (req_identity req) place_id)
    (Store.rows (w_db w)) = Some old ->
  sat (delete_review req place_id) w (fun o new w' =>
    o = Returned (mkResponse 200
          (JObj [("message", JStr "Review deleted successfully")]))
    /\ w_places w' = w_places w
    /\ w_db w'
       = mkDb (db_users (w_db w))
              (filter (fun r => negb (r_id r =? r_id old)) (Store.rows (w_db w)))
              None (tl (tl (db_faults (w_db w))))
              (db_next_id (w_db w)) (db_clock (w_db w) + 1)
    /\ steps new = [ EvCommit;
                     EvHistogram place_id (Some (r_rating old)) None;
                     EvInvalidate place_id;
                     EvPreference (req_identity req) ]).
Proof.
  intros Hp H0 H1 Hold.
  unfold place_known, fault_at in *. rewrite ?nth_S_tl, nth_0_hd in *.
  apply (f_equal negb) in Hp. cbn [negb] in Hp.
  unfold delete_review. repeat sat_step''.
  split; [reflexivity|]. split; [reflexivity|]. split; [reflexivity|].
  steps_goal. reflexivity.
Qed.

Lemma find_after_delete rows (user_id : option string) (place_id : string)
    (old : UserReview) :
  one_review_per_pair rows ->
  List.find (Store.by_user_and_place user_id place_id) rows = Some old ->
  List.find (Store.by_user_and_place user_id place_id)
    (filter (fun r => negb (r_id r =? r_id old)) rows) = None.
Proof.
  intros Hinv Hold.
  pose proof (find_some _ _ Hold) as [Hin Hmatch].
  destruct (find _ (filter _ rows)) as [r|] eqn:E; [|reflexivity].
  exfalso. pose proof (find_some _ _ E) as [Hr Hm].
  apply filter_In in Hr. destruct Hr as [Hr Hne].
  unfold Store.by_user_and_place in *.
  apply andb_true_iff in Hmatch, Hm.
  destruct Hmatch as [Hu1 Hp1], Hm as [Hu2 Hp2].
  apply option_string_eqb_eq in Hu1, Hu2. apply String.eqb_eq in Hp1, Hp2.
  assert (r = old) by (apply Hinv; auto; congruence).
  subst r. rewrite Z.eqb_refl in Hne. discriminate Hne.
Qed.

Lemma delete_review_not_found
    (req : Request) (place_id : string) (w : World) :
  place_known place_id w ->
  fault_at 0 w = None ->
  List.find (Store.by_user_and_place (req_identity req) place_id)
    (Store.rows (w_db w)) = None ->
  sat (delete_review req place_id) w (fun o _ _ =>
    o = Returned (error_response "Review not found" 404)).
Proof.
  intros Hp H0 Hnone.
  unfold place_known, fault_at in *. rewrite nth_0_hd in *.
  apply (f_equal negb) in Hp. cbn [negb] in Hp.
  unfold delete_review. repeat sat_step''. reflexivity.
Qed.

Lemma find_none_filter {A} (p : A -> bool) (l : list A) :
  List.find p l = None -> filter p l = [].
Proof.
  induction l as [|x l IH]; [reflexivity|]. simpl.
  destruct (p x); [discriminate | exact IH].
Qed.

Lemma get_my_place_review_not_found
    (req : Request) (place_id : string) (w : World) :
  place_known place_id w ->
  fault_at 0 w = None ->
  List.find (Store.by_user_and_place (req_identity req) place_id)
    (Store.rows (w_db w)) = None ->
  sat (get_my_place_review req place_id) w (fun o _ _ =>
    o = Returned (error_response "You have not reviewed this place yet" 404)).
Proof.
  intros Hp H0 Hnone.
  unfold place_known, fault_at in *. rewrite nth_0_hd in *.
  apply (f_equal negb) in Hp. cbn [negb] in Hp.
  assert (Hj : hd_error
            (Store.join_users (db_users (w_db w))
               (filter (Store.by_user_and_place (req_identity req) place_id)
                  (Store.rows (w_db w)))) = None).
  { assert (Hf : filter (Store.by_user_and_place (req_identity req) place_id)
                   (Store.rows (w_db w)) = [])
      by now apply find_none_filter.
    now rewrite Hf. }
  unfold get_my_place_review. repeat sat_step''. reflexivity.
Qed.

(** X17.  A delete removes the review for good: when the place exists, the store
    answers three round trips and the table has at most one review per user
    and place, a delete by a user who has a review answers 200, removes that
    row and no other, and a second delete by the same user for the same
    place answers 404 for want of a review, as does the lookup of the
    review. *)
Theorem delete_then_not_found
    (req : Request) (place_id : string) (old : UserReview) (w : World) :
  place_known place_id w ->
  fault_at 0 w = None -> fault_at 1 w = None -> fault_at 2 w = None ->
  one_review_per_pair (Store.rows (w_db w)) ->
  List.find (Store.by_user_and_place (req_identity req) place_id)
    (Store.rows (w_db w)) = Some old ->
  let w' := snd (delete_review req place_id w) in
  fst (run_view (delete_review req place_id) w)
  = Py.Ok (mkResponse 200
             (JObj [("message", JStr "Review deleted successfully")]))
  /\ db_reviews (w_db w')
     = filter (fun r => negb (r_id r =? r_id old)) (Store.rows (w_db w))
  /\ fst (run_view (delete_review req place_id) w')
     = Py.Ok (error_response "Review not found" 404)
  /\ fst (run_view (get_my_place_review req place_id) w')
     = Py.Ok (error_response "You have not reviewed this place yet" 404).
Proof.
  intros Hp H0 H1 H2 Hinv Hold w'.
  destruct (delete_review_removes req place_id old w Hp H0 H1 Hold)
    as [new [_ [Ho [Hpl [Hdb _]]]]].
  fold w' in Hpl, Hdb.
  assert (Hp' : place_known place_id w')
    by (unfold place_known; now rewrite Hpl).
  assert (H0' : fault_at 0 w' = None).
  { unfold fault_at in *. rewrite Hdb. cbn [db_faults].
    rewrite nth_0_hd. rewrite !nth_S_tl, nth_0_hd in H2. exact H2. }
  assert (Hnone : List.find
            (Store.by_user_and_place (req_identity req) place_id)
            (Store.rows (w_db w')) = None).
  { rewrite Hdb. unfold Store.rows at 1. cbn [db_session db_reviews].
    now apply find_after_delete. }
  split; [now apply run_view_returned|].
  split; [now rewrite Hdb|]. split.
  - destruct (delete_review_not_found req place_id w' Hp' H0' Hnone)
      as [_ [_ H]]. now apply run_view_returned.
  - destruct (get_my_place_review_not_found req place_id w' Hp' H0' Hnone)
      as [_ [_ H]]. now apply run_view_returned.
Qed.

Lemma delete_then_not_found_witness :
  let w' := snd (delete_review alice_asks "hotel-1" reviewed_world) in
  fst (run_view (delete_review alice_asks "hotel-1") reviewed_world)
  = Py.Ok (mkResponse 200
             (JObj [("message", JStr "Review deleted successfully")]))
  /\ db_reviews (w_db w') = []
  /\ fst (run_view (delete_review alice_asks "hotel-1") w')
     = Py.Ok (error_response "Review not found" 404)
  /\ fst (run_view (get_my_place_review alice_asks "hotel-1") w')
     = Py.Ok (error_response "You have not reviewed this place yet" 404).
Proof.
  exact (delete_then_not_found alice_asks "hotel-1"
           (mkReview 1 (Some "u1") "hotel-1" 4 (JStr "Great stay") 100 100)
           reviewed_world eq_refl eq_refl eq_refl eq_refl
           (single_row_pairs _) eq_refl).
Defined.

(* ================================================================== *)
(** * Listing keys do not collide *)
(* ================================================================== *)

(** No character of [s] is the separator [&] of the key. *)
Fixpoint no_amp (s : string) : bool :=
  match s with
  | EmptyString => true
  | String c rest => negb (Ascii.eqb c "&") && no_amp rest
  end.

Lemma append_cancel (a x y : string) : a ++ x = a ++ y -> x = y.
Proof.
  induction a as [|c a IH]; simpl; intros H; [exact H|].
  injection H as H. now apply IH.
Qed.

(** Two fields that hold no [&] and are followed by one are read back
    unambiguously. *)
Lemma split_at_amp (a1 a2 r1 r2 : string) :
  no_amp a1 = true -> no_amp a2 = true ->
  a1 ++ String "&" r1 = a2 ++ String "&" r2 -> a1 = a2 /\ r1 = r2.
Proof.
  revert a2. induction a1 as [|c1 a1 IH]; intros [|c2 a2]; simpl; intros H1 H2 H.
  - injection H as H. now split.
  - injection H as Hc _. subst c2. discriminate H2.
  - injection H as Hc _. subst c1. discriminate H1.
  - injection H as Hc H. subst c2.
    apply andb_true_iff in H1 as [_ H1]. apply andb_true_iff in H2 as [_ H2].
    destruct (IH a2 H1 H2 H) as [-> ->]. now split.
Qed.

Lemma no_amp_digits (d : Decimal.uint) :
  no_amp (NilEmpty.string_of_uint d) = true.
Proof. induction d; simpl; auto. Qed.

Lemma no_amp_str_of_int (z : Z) : no_amp (Py.str_of_int z) = true.
Proof.
  unfold Py.str_of_int, NilZero.string_of_int, NilZero.string_of_uint.
  destruct (Z.to_int z) as [d|d]; destruct d; try reflexivity;
    apply (no_amp_digits (_ _)) || (simpl; apply (no_amp_digits _)).
Qed.

(** [str] of an int is read back by [int]: two ints with the same decimal
    text are equal. *)
Lemma str_of_int_inj (a b : Z) : Py.str_of_int a = Py.str_of_int b -> a = b.
Proof.
  unfold Py.str_of_int. intros H.
  assert (Hnn : forall z, Z.to_int z <> Decimal.Pos Decimal.Nil
                          /\ Z.to_int z <> Decimal.Neg Decimal.Nil).
  { intros [|p|p]; simpl; split; try discriminate;
      intros [= Hp]; now apply (DecimalPos.Unsigned.to_uint_nonnil p). }
  apply (f_equal NilZero.int_of_string) in H.
  rewrite !NilZero.isi in H by apply Hnn.
  injection H as H.
  rewrite <- (DecimalZ.of_to a), <- (DecimalZ.of_to b). now rewrite H.
Qed.

(** The parameters of a listing, as the views pass them. *)
Definition listing_params (page size : Z) (sort_by order : string) : params :=
  [ ("page", PInt page); ("size", PInt size);
    ("sort_by", PStr sort_by); ("order", PStr order) ].

Lemma listing_key_inj (base : string)
    (page1 size1 : Z) (sort_by1 order1 : string)
    (page2 size2 : Z) (sort_by2 order2 : string) :
  no_amp order1 = true -> no_amp order2 = true ->
  key_with_params base (listing_params page1 size1 sort_by1 order1)
  = key_with_params base (listing_params page2 size2 sort_by2 order2) ->
  page1 = page2 /\ size1 = size2 /\ sort_by1 = sort_by2 /\ order1 = order2.
Proof.
  intros Ho1 Ho2 H.
  unfold key_with_params, listing_params, query_params, Py.join in H.
  cbn -[Py.str_of_int] in H.
  apply append_cancel in H. injection H as H.
  apply split_at_amp in H as [Ho H]; [|assumption..].
  injection H as H.
  apply split_at_amp in H as [Hp H]; [|apply no_amp_str_of_int..].
  injection H as H.
  apply split_at_amp in H as [Hs H]; [|apply no_amp_str_of_int..].
  injection H as H.
  apply str_of_int_inj in Hp, Hs. now repeat split.
Qed.

Lemma no_amp_order (order : string) :
  In order ["asc"; "desc"] -> no_amp order = true.
Proof. intros [<- | [<- | []]]; reflexivity. Qed.

(** X18.  On either listing, two accepted requests with the same key asked
    for the same page, size, sort field and direction: no two listings
    share an entry of the cache. *)
Theorem listing_keys_do_not_collide
    (place_id : string)
    (page1 size1 : Z) (sort_by1 order1 : string)
    (page2 size2 : Z) (sort_by2 order2 : string) :
  In order1 ["asc"; "desc"] -> In order2 ["asc"; "desc"] ->
  (get_reviews_cache_key place_id (listing_params page1 size1 sort_by1 order1)
   = get_reviews_cache_key place_id (listing_params page2 size2 sort_by2 order2)
   \/ get_all_reviews_cache_key (listing_params page1 size1 sort_by1 order1)
      = get_all_reviews_cache_key (listing_params page2 size2 sort_by2 order2)) ->
  page1 = page2 /\ size1 = size2 /\ sort_by1 = sort_by2 /\ order1 = order2.
Proof.
  intros Ho1%no_amp_order Ho2%no_amp_order [H | H];
    now apply listing_key_inj in H.
Qed.

Lemma listing_keys_do_not_collide_witness :
  1 = 1 /\ 10 = 10 /\ "rating" = "rating" /\ "asc" = "asc".
Proof.
  apply (listing_keys_do_not_collide "hotel-1" 1 10 "rating" "asc"
           1 10 "rating" "asc").
  - left. reflexivity.
  - left. reflexivity.
  - left. reflexivity.
Defined.

(* ================================================================== *)
(** * The keys of a place entity *)
(* ================================================================== *)

Lemma length_append (a b : string) :
  String.length (a ++ b) = (String.length a + String.length b)%nat.
Proof. induction a as [|c a IH]; simpl; [reflexivity | now rewrite IH]. Qed.

Lemma append_cancel_r (a b c : string) : a ++ c = b ++ c -> a = b.
Proof.
  revert b. induction a as [|x a IH]; intros [|y b]; simpl; intros H.
  - reflexivity.
  - apply (f_equal String.length) in H. simpl in H.
    rewrite length_append in H. lia.
  - apply (f_equal String.length) in H. simpl in H.
    rewrite length_append in H. lia.
  - injection H as -> H. f_equal. now apply IH.
Qed.

Lemma append_assoc (a b c : string) : (a ++ b) ++ c = a ++ b ++ c.
Proof. induction a as [|x a IH]; simpl; [reflexivity | now rewrite IH]. Qed.

(** X19.  The keys under which a place entity is cached and the keys that an
    invalidation deletes are the same keys: the key built for a place type
    is one of the three deleted exactly when the type is [hotel],
    [restaurant] or [thing-to-do] in any letter case. *)
Theorem place_key_deleted_iff_known_type (place_type place_id : string) :
  In (get_place_cache_key place_type place_id) (place_data_keys place_id)
  <-> In (lower place_type) ["hotel"; "restaurant"; "thing-to-do"].
Proof.
  unfold get_place_cache_key, place_data_keys.
  destruct (String.eqb_spec (lower place_type) "thing-to-do") as [-> | Hne].
  { split; intros _; simpl; auto. }
  set (t := lower place_type) in *. clearbody t.
  split.
  - intros [H | [H | [H | []]]]; symmetry in H.
    + change ("hotels:" ++ place_id) with ("hotel" ++ "s:" ++ place_id) in H.
      apply append_cancel_r in H. subst t. simpl. auto.
    + change ("restaurants:" ++ place_id)
        with ("restaurant" ++ "s:" ++ place_id) in H.
      apply append_cancel_r in H. subst t. simpl. auto.
    + exfalso.
      change (t ++ "s:" ++ place_id) with (t ++ "s" ++ ":" ++ place_id) in H.
      change ("things-to-do:" ++ place_id)
        with ("things-to-do" ++ ":" ++ place_id) in H.
      rewrite <- append_assoc in H. apply append_cancel_r in H.
      repeat (destruct t as [|? t]; simpl in H; [discriminate H|];
              injection H as ? H; subst).
      destruct t; discriminate H.
  - intros [<- | [<- | [<- | []]]]; simpl; auto; now contradiction Hne.
Qed.
